(** * PandExo online engine: job registry, status projection and artifacts

    A shallow embedding of [pandexo/engine/run_online.py] and the properties
    of its job lifecycle: the process-wide [BaseHandler.buffer] (an
    [OrderedDict] of [CalculationTask] tuples), the status projection
    [_get_task_response], the dashboards, result retrieval through the
    [Future] handed out by the process pool, and the clean-up of the
    [__TEMP__] directory.

    Tornado serves one request at a time on its IO loop and none of the
    handlers yields, so a handler is a function from the request and the
    state of the server to an outcome and a new state. *)

From Stdlib Require Import ZArith String Ascii List Lia DecimalString.
From stdpp Require Import gmap strings list.

(** ** Python values, exceptions and outcomes *)

Module Py.

(** An exception instance: its class name, its message and, for
    subclasses of [tornado.web.HTTPError], the status code it carries. *)
Record Exc := mkExc {
  exc_kind : string;
  exc_msg : string;
  exc_http : option Z
}.

Inductive Res (A : Type) : Type :=
| Ret (a : A)
| Raise (e : Exc).
Arguments Ret {A} a.
Arguments Raise {A} e.

(** The values the handlers pass around: results of the calculation are
    dictionaries of divs and arrays, the status response holds strings and
    integers. *)
#[warnings="-register-all"]
Inductive Val : Type :=
| VNone
| VInt (z : Z)
| VStr (s : string)
| VList (l : list Val)
| VDict (kv : list (string * Val)).

Definition AttributeError (msg : string) : Exc := mkExc "AttributeError" msg None.
Definition IndexError (msg : string) : Exc := mkExc "IndexError" msg None.
Definition KeyError (msg : string) : Exc := mkExc "KeyError" msg None.
Definition TypeError (msg : string) : Exc := mkExc "TypeError" msg None.
Definition ValueError (msg : string) : Exc := mkExc "ValueError" msg None.
Definition CancelledError : Exc := mkExc "CancelledError" "" None.
Definition FileNotFoundError (msg : string) : Exc := mkExc "FileNotFoundError" msg None.

(** [s[i]] on a string: negative indices count from the end, anything out
    of range raises [IndexError]. The result is a string of length one. *)
Definition str_getitem (s : string) (i : Z) : Res string :=
  let n := Z.of_nat (String.length s) in
  let j := if (i <? 0)%Z then (i + n)%Z else i in
  if ((j <? 0) || (n <=? j))%Z then Raise (IndexError "string index out of range")
  else match String.get (Z.to_nat j) s with
       | Some c => Ret (String c EmptyString)
       | None => Raise (IndexError "string index out of range")
       end.

(** [s.find(sub)]: the lowest index at which [sub] occurs in [s], or -1. *)
Fixpoint find_from (i : Z) (s sub : string) : Z :=
  if String.prefix sub s then i
  else match s with
       | EmptyString => (-1)%Z
       | String _ s' => find_from (i + 1)%Z s' sub
       end.

Definition find (s sub : string) : Z := find_from 0 s sub.

(** [d[k]] on a dictionary value. *)
Fixpoint assoc (k : string) (kv : list (string * Val)) : option Val :=
  match kv with
  | [] => None
  | (k', v) :: kv' => if decide (k' = k) then Some v else assoc k kv'
  end.

Definition getitem (d : Val) (k : string) : Res Val :=
  match d with
  | VDict kv => match assoc k kv with
                | Some v => Ret v
                | None => Raise (KeyError k)
                end
  | _ => Raise (TypeError "object is not subscriptable")
  end.

(** [d[k] = v] on a dictionary value. *)
Fixpoint assoc_set (k : string) (v : Val) (kv : list (string * Val)) : list (string * Val) :=
  match kv with
  | [] => [(k, v)]
  | (k', v') :: kv' =>
      if decide (k' = k) then (k', v) :: kv' else (k', v') :: assoc_set k v kv'
  end.

Definition setitem (d : Val) (k : string) (v : Val) : Res Val :=
  match d with
  | VDict kv => Ret (VDict (assoc_set k v kv))
  | _ => Raise (TypeError "object does not support item assignment")
  end.

End Py.
Export Py.

(** ** [collections.OrderedDict] with string keys

    Insertion order matters (eviction pops the first item, the dashboards
    list the items in order), so the dictionary is the list of its items. *)

Module OrderedDict.

Definition t (V : Type) : Type := list (string * V).

Definition empty {V : Type} : t V := [].

Definition len {V : Type} (d : t V) : Z := Z.of_nat (length d).

Definition items {V : Type} (d : t V) : list (string * V) := d.

Definition keys {V : Type} (d : t V) : list string := d.*1.

(** [d.get(k)]: [None] when the key is absent, no exception. *)
Fixpoint get {V : Type} (k : string) (d : t V) : option V :=
  match d with
  | [] => None
  | (k', v) :: d' => if decide (k' = k) then Some v else get k d'
  end.

(** [d[k] = v]: an existing key keeps its position, a new key goes last. *)
Fixpoint setitem {V : Type} (k : string) (v : V) (d : t V) : t V :=
  match d with
  | [] => [(k, v)]
  | (k', v') :: d' =>
      if decide (k' = k) then (k', v) :: d' else (k', v') :: setitem k v d'
  end.

(** [d.popitem(last=False)]: removes and returns the first item. *)
Definition popitem_first {V : Type} (d : t V) : Res ((string * V) * t V) :=
  match d with
  | [] => Raise (KeyError "dictionary is empty")
  | kv :: d' => Ret (kv, d')
  end.

End OrderedDict.

(** ** [concurrent.futures.Future] as returned by [executor.submit]

    The executor keeps the work item (function and argument) next to the
    future until a worker process has run it; the record below carries both.
    [fn_calls] is a ghost counter of how often a worker called the function. *)

Module Future.

Inductive State := PENDING | RUNNING | CANCELLED | CANCELLED_AND_NOTIFIED | FINISHED.

#[global] Instance State_eq_dec : EqDecision State.
Proof. solve_decision. Defined.

Record t := mk {
  _state : State;
  _result : Val;
  _exception : option Exc;
  _fn : Val -> Res Val;
  _args : Val;
  fn_calls : nat
}.

Definition running (f : t) : bool := bool_decide (_state f = RUNNING).

Definition cancelled (f : t) : bool :=
  bool_decide (_state f = CANCELLED) || bool_decide (_state f = CANCELLED_AND_NOTIFIED).

Definition done (f : t) : bool :=
  bool_decide (_state f = CANCELLED)
  || bool_decide (_state f = CANCELLED_AND_NOTIFIED)
  || bool_decide (_state f = FINISHED).

Definition set_running_or_notify_cancel (f : t) : t :=
  match _state f with
  | PENDING => mk RUNNING (_result f) (_exception f) (_fn f) (_args f) (fn_calls f)
  | CANCELLED =>
      mk CANCELLED_AND_NOTIFIED (_result f) (_exception f) (_fn f) (_args f) (fn_calls f)
  | _ => f
  end.

Definition set_result (v : Val) (f : t) : t :=
  mk FINISHED v (_exception f) (_fn f) (_args f) (fn_calls f).

Definition set_exception (e : Exc) (f : t) : t :=
  mk FINISHED (_result f) (Some e) (_fn f) (_args f) (fn_calls f).

(** A worker process runs the call item of a running future and the
    result, or the exception it raised, is stored in the future. *)
Definition worker_run (f : t) : t :=
  match _state f with
  | RUNNING =>
      let f' := mk (_state f) (_result f) (_exception f) (_fn f) (_args f) (S (fn_calls f)) in
      match _fn f (_args f) with
      | Ret v => set_result v f'
      | Raise e => set_exception e f'
      end
  | _ => f
  end.

Definition __get_result (f : t) : Res Val :=
  match _exception f with
  | Some e => Raise e
  | None => Ret (_result f)
  end.

(** [result()] without a timeout. On a future that is not done the caller
    waits on the condition until the pool has run the work item. *)
Definition result (f : t) : Res Val * t :=
  match _state f with
  | CANCELLED | CANCELLED_AND_NOTIFIED => (Raise CancelledError, f)
  | FINISHED => (__get_result f, f)
  | PENDING | RUNNING =>
      let f' := worker_run (set_running_or_notify_cancel f) in
      (__get_result f', f')
  end.

End Future.

(** [ProcessPoolExecutor.submit(fn, args)]: a pending future. *)
Module Executor.

Definition submit (fn : Val -> Res Val) (args : Val) : Future.t :=
  Future.mk Future.PENDING VNone None fn args 0.

End Executor.

(** What happens to a job handle between submission and eviction. *)
Inductive TaskEvent :=
| PoolDispatch
| WorkerCompletes
| ResultCalled.

#[global] Instance TaskEvent_eq_dec : EqDecision TaskEvent.
Proof. solve_decision. Defined.

Definition task_step (f : Future.t) (ev : TaskEvent) : Future.t :=
  match ev with
  | PoolDispatch => Future.set_running_or_notify_cancel f
  | WorkerCompletes => Future.worker_run f
  | ResultCalled => (Future.result f).2
  end.

Definition task_run (evs : list TaskEvent) (f : Future.t) : Future.t :=
  foldl task_step f evs.

(** ** The server: requests, shared state and handlers *)

(** The named tuple kept in the buffer for a submitted calculation. *)
Module CalculationTask.

Record t := mk {
  id : string;
  name : string;
  task : Future.t;
  cookie : option string;
  count : Z
}.

End CalculationTask.

(** The dictionary [_get_task_response] builds and the handlers write. *)
Abbreviation Response := (gmap string Val).

(** What a handler sends towards the client, in order. *)
Inductive Emit :=
| WriteDict (d : Response)
| WriteBytes (data : list Byte.byte)
| SetHeader (k v : string)
| Render (template : string) (calculations : list Response) (kwargs : list (string * Val))
| RenderError (status_code : Z) (error_log : string)
| Redirect (url : string)
| Finish.

Record Request := mkRequest {
  cookies : gmap string string;
  arguments : gmap string string;
  stream_closed : bool
}.

(** [buffer] is the class attribute shared by all handlers, [temp] the
    files of the [__TEMP__] directory, [out] the output of the request
    being served. *)
Record World := mkWorld {
  buffer : OrderedDict.t CalculationTask.t;
  temp : gmap string (list Byte.byte);
  out : list Emit
}.

(** The collaborators imported by the module: template rendering, the
    calculation itself, the plot components and the serialisers. *)
Class Externals := {
  render_string : string -> Response -> string;
  wrapper : Val -> Res Val;
  create_component_jwst : Val -> Res (Val * Val);
  create_component_hst : Val -> Res (Val * Val);
  pickle_dumps : Val -> list Byte.byte;
  np_savetxt : Val -> Val -> Res (list Byte.byte);
  format_exception : Exc -> string
}.

(** A handler method: it reads the request, changes the state and either
    returns or raises; what it did before raising stays done. *)
Definition Handler (A : Type) : Type := Request -> World -> Res A * World.

#[global] Instance Handler_ret : MRet Handler := fun A a _ w => (Ret a, w).

#[global] Instance Handler_bind : MBind Handler := fun A B k m req w =>
  match m req w with
  | (Ret a, w') => k a req w'
  | (Raise e, w') => (Raise e, w')
  end.

(** A bare [return], or nothing to do. *)
Definition pass : Handler unit := fun _ w => (Ret tt, w).

Definition raise {A : Type} (e : Exc) : Handler A := fun _ w => (Raise e, w).

Definition lift {A : Type} (r : Res A) : Handler A := fun _ w => (r, w).

Definition get_buffer : Handler (OrderedDict.t CalculationTask.t) :=
  fun _ w => (Ret (buffer w), w).

Definition put_buffer (b : OrderedDict.t CalculationTask.t) : Handler unit :=
  fun _ w => (Ret tt, mkWorld b (temp w) (out w)).

Definition emit (e : Emit) : Handler unit :=
  fun _ w => (Ret tt, mkWorld (buffer w) (temp w) (out w ++ [e])).

Definition get_cookie (k : string) : Handler (option string) :=
  fun req w => (Ret (cookies req !! k), w).

(** [get_argument] without a default raises [MissingArgumentError], an
    [HTTPError] with status 400. *)
Definition get_argument (k : string) : Handler string :=
  fun req w =>
    match arguments req !! k with
    | Some v => (Ret v, w)
    | None => (Raise (mkExc "MissingArgumentError" k (Some 400%Z)), w)
    end.

Definition connection_stream_closed : Handler bool :=
  fun req w => (Ret (stream_closed req), w).

(** Attribute access on the value of [dict.get]: [None] has no attributes. *)
Definition getattr {A B : Type} (o : option A) (attr : string) (proj : A -> B) : Handler B :=
  match o with
  | Some a => mret (proj a)
  | None => raise (AttributeError ("'NoneType' object has no attribute '" +:+ attr +:+ "'"))
  end.

(** Files of [__TEMP__]. *)
Definition open_write (file_name : string) (data : list Byte.byte) : Handler unit :=
  fun _ w => (Ret tt, mkWorld (buffer w) (<[file_name := data]> (temp w)) (out w)).

Definition open_read (file_name : string) : Handler (list Byte.byte) :=
  fun _ w =>
    match temp w !! file_name with
    | Some data => (Ret data, w)
    | None => (Raise (FileNotFoundError file_name), w)
    end.

Definition os_listdir : Handler (list string) :=
  fun _ w => (Ret (map_to_list (temp w)).*1, w).

Definition os_remove (file_name : string) : Handler unit :=
  fun _ w =>
    match temp w !! file_name with
    | Some _ => (Ret tt, mkWorld (buffer w) (delete file_name (temp w)) (out w))
    | None => (Raise (FileNotFoundError file_name), w)
    end.

(** [for x in xs: body(x)] *)
Fixpoint for_each {A : Type} (xs : list A) (body : A -> Handler unit) : Handler unit :=
  match xs with
  | [] => mret tt
  | x :: xs' => body x ≫= fun _ => for_each xs' body
  end.

(** The clean-up loop the download and view handlers share by copy:
    every listed file whose name contains [id] is removed. *)
Definition remove_files_of (id : string) : Handler unit :=
  allfiles ← os_listdir;
  for_each allfiles (fun i =>
    if bool_decide (find i id ≠ (-1)%Z) then os_remove i else mret tt).

(** [while True: data = f.read(buf_size); if not data: break; self.write(data)].
    The file is finite: one round per byte and one more always reach the
    end of the file. *)
Fixpoint write_chunks (rounds : nat) (buf_size : nat) (rest : list Byte.byte) : Handler unit :=
  match rounds with
  | O => mret tt
  | S rounds' =>
      match take buf_size rest with
      | [] => mret tt
      | data => emit (WriteBytes data) ≫= fun _ =>
                write_chunks rounds' buf_size (drop buf_size rest)
      end
  end.

Definition write_file_in_chunks (buf_size : nat) (content : list Byte.byte) : Handler unit :=
  write_chunks (S (length content)) buf_size content.

Module BaseHandler.

Section Methods.
Context `{Externals}.

(** The body shared by [_get_task_response] and [_get_task_response_hst];
    the two differ in the row template only. *)
Definition task_response_with (template : string) (id : string) : Handler Response :=
  buf ← get_buffer;
  let calc_task := OrderedDict.get id buf in
  task ← getattr calc_task "task" CalculationTask.task;
  name ← getattr calc_task "name" CalculationTask.name;
  count ← getattr calc_task "count" CalculationTask.count;
  let response : Response :=
    <["count" := VInt count]> (<["name" := VStr name]> (<["id" := VStr id]> ∅)) in
  let response : Response :=
    if Future.running task then
      <["code" := VInt 202]> (<["state" := VStr "running"]> response)
    else if Future.done task then
      <["state" := VStr "finished"]> response
    else if Future.cancelled task then
      <["state" := VStr "cancelled"]> response
    else
      <["state" := VStr "pending"]> response in
  mret (<["html" := VStr (render_string template response)]> response).

Definition _get_task_response (id : string) : Handler Response :=
  task_response_with "calc_row.html" id.

Definition _get_task_response_hst (id : string) : Handler Response :=
  task_response_with "calc_rowhst.html" id.

(** [self.render('errors.html', ...)] with the formatted traceback. *)
Definition write_error (status_code : Z) (exc_info : Exc) : Handler unit :=
  emit (RenderError status_code (format_exception exc_info)).

(** The future is an object shared with the pool: a change of its state
    is a change of the record stored under [id]. *)
Definition store_task (id : string) (task' : Future.t) : Handler unit :=
  buf ← get_buffer;
  match OrderedDict.get id buf with
  | Some ct =>
      put_buffer (OrderedDict.setitem id
        (CalculationTask.mk (CalculationTask.id ct) (CalculationTask.name ct) task'
           (CalculationTask.cookie ct) (CalculationTask.count ct)) buf)
  | None => mret tt
  end.

Definition _get_task_result (id : string) : Handler Val :=
  buf ← get_buffer;
  let calc_task := OrderedDict.get id buf in
  task ← getattr calc_task "task" CalculationTask.task;
  let '(r, task') := Future.result task in
  store_task id task';;
  lift r.

Definition _add_task (id name : string) (task : Future.t) : Handler unit :=
  buf ← get_buffer;
  cookie ← get_cookie "pandexo_user";
  put_buffer (OrderedDict.setitem id
    (CalculationTask.mk id name task cookie (OrderedDict.len buf + 1)%Z) buf);;
  buf ← get_buffer;
  if bool_decide (OrderedDict.len buf > 100)%Z then
    lift (OrderedDict.popitem_first buf) ≫= fun '(_, buf') => put_buffer buf'
  else mret tt.

(** The list comprehension of the dashboards: the condition is evaluated
    for every item (both operands of [&]), the response for those that pass. *)
Fixpoint task_responses (tag : string) (project : string -> Handler Response)
    (items : list (string * CalculationTask.t)) : Handler (list Response) :=
  match items with
  | [] => mret []
  | (id, nt) :: items' =>
      user ← get_cookie "pandexo_user";
      last ← lift (str_getitem id (Z.of_nat (String.length id) - 1));
      if bool_decide (CalculationTask.cookie nt = user) && bool_decide (last = tag)
      then r ← project id;
           rs ← task_responses tag project items';
           mret (r :: rs)
      else task_responses tag project items'
  end.

End Methods.

End BaseHandler.

Import BaseHandler.

(** [DashboardHandler.get] *)
Module DashboardHandler.

Definition get `{Externals} : Handler unit :=
  buf ← get_buffer;
  task_responses ← task_responses "e" _get_task_response (OrderedDict.items buf);
  emit (Render "dashboard.html" (rev task_responses) []).

End DashboardHandler.

(** [DashboardHSTHandler.get] *)
Module DashboardHSTHandler.

Definition get `{Externals} : Handler unit :=
  buf ← get_buffer;
  task_responses ← task_responses "h" _get_task_response_hst (OrderedDict.items buf);
  emit (Render "dashboardhst.html" (rev task_responses) []).

End DashboardHSTHandler.

(** [CalculationNewHandler.post] on a submitted form. [uuid] is the value
    of [str(uuid.uuid4())], [planFile] the extension and body of the planet
    file when one is uploaded, [finaldata] the input assembled from the form. *)
Module CalculationNewHandler.

Definition post `{Externals} (uuid : string)
    (planFile : option (string * list Byte.byte)) (finaldata : Val) : Handler unit :=
  let id := uuid +:+ "e" in
  match planFile with
  | Some (extn_plan, body) => open_write (id +:+ "planet" +:+ extn_plan) body
  | None => pass
  end;;
  let task := Executor.submit wrapper finaldata in
  calcName ← get_argument "calcName";
  _add_task id calcName task;;
  response ← _get_task_response id;
  let response : Response :=
    <["location" := VStr ("/calculation/status/" +:+ id)]>
      (<["info" := VDict []]> response) in
  emit (WriteDict response);;
  emit (Redirect "../dashboard").

End CalculationNewHandler.

(** [CalculationNewHSTHandler.post] on a submitted form. *)
Module CalculationNewHSTHandler.

Definition post `{Externals} (uuid : string)
    (planFile : option (string * list Byte.byte)) (finaldata : Val) : Handler unit :=
  let id := uuid +:+ "h" in
  match planFile with
  | Some (extn_plan, body) => open_write (id +:+ "planet" +:+ extn_plan) body
  | None => pass
  end;;
  let task := Executor.submit wrapper finaldata in
  calcName ← get_argument "calcName";
  _add_task id calcName task;;
  response ← _get_task_response_hst id;
  let response : Response :=
    <["location" := VStr ("/calculation/statushst/" +:+ id)]>
      (<["info" := VDict []]> response) in
  emit (WriteDict response);;
  emit (Redirect "../dashboardhst").

End CalculationNewHSTHandler.

(** [CalculationStatusHandler.get] *)
Module CalculationStatusHandler.

Definition get `{Externals} (id : string) : Handler unit :=
  response ← _get_task_response id;
  closed ← connection_stream_closed;
  if (closed : bool) then pass else emit (WriteDict response).

End CalculationStatusHandler.

(** [CalculationStatusHSTHandler.get] *)
Module CalculationStatusHSTHandler.

Definition get `{Externals} (id : string) : Handler unit :=
  response ← _get_task_response_hst id;
  closed ← connection_stream_closed;
  if (closed : bool) then pass else emit (WriteDict response).

End CalculationStatusHSTHandler.

(** [CalculationDownloadHandler.get] *)
Module CalculationDownloadHandler.

Definition get `{Externals} (id : string) : Handler unit :=
  result ← _get_task_result id;
  closed ← connection_stream_closed;
  if (closed : bool) then pass else
  let file_name := "ETC-calculation" +:+ id +:+ ".p" in
  open_write file_name (pickle_dumps result);;
  emit (SetHeader "Content-Type" "application/octet-stream");;
  emit (SetHeader "Content-Disposition" ("attachment; filename=" +:+ file_name));;
  content ← open_read file_name;
  write_file_in_chunks 4096 content;;
  remove_files_of id;;
  emit Finish.

End CalculationDownloadHandler.

(** [CalculationDownloadPandInHandler.get] *)
Module CalculationDownloadPandInHandler.

Definition get `{Externals} (id : string) : Handler unit :=
  result ← _get_task_result id;
  closed ← connection_stream_closed;
  if (closed : bool) then pass else
  let file_name := "PandExo-Input-file" +:+ id +:+ ".txt" in
  w ← lift (getitem result "w");
  alpha ← lift (getitem result "alpha");
  table ← lift (np_savetxt w alpha);
  open_write file_name table;;
  emit (SetHeader "Content-Type" "application/octet-stream");;
  emit (SetHeader "Content-Disposition" ("attachment; filename=" +:+ file_name));;
  content ← open_read file_name;
  write_file_in_chunks 4096 content;;
  remove_files_of id;;
  emit Finish.

End CalculationDownloadPandInHandler.

(** [CalculationViewHandler.get] *)
Module CalculationViewHandler.

Definition get `{Externals} (id : string) : Handler unit :=
  result ← _get_task_result id;
  '(script, div) ← lift (create_component_jwst result);
  timing_div ← lift (getitem result "timing_div");
  div ← lift (setitem div "timing_div" timing_div);
  input_div ← lift (getitem result "input_div");
  div ← lift (setitem div "input_div" input_div);
  warnings_div ← lift (getitem result "warnings_div");
  div ← lift (setitem div "warnings_div" warnings_div);
  remove_files_of id;;
  emit (Render "view.html" [] [("script", script); ("div", div); ("id", VStr id)]).

End CalculationViewHandler.

(** [CalculationViewHSTHandler.get] *)
Module CalculationViewHSTHandler.

Definition get `{Externals} (id : string) : Handler unit :=
  result ← _get_task_result id;
  '(script, div) ← lift (create_component_hst result);
  info_div ← lift (getitem result "info_div");
  div ← lift (setitem div "info_div" info_div);
  emit (Render "viewhst.html" [] [("script", script); ("div", div); ("id", VStr id)]).

End CalculationViewHSTHandler.

(** How the framework runs a handler method. An exception that leaves the
    method is answered by [send_error]: the output so far is cleared and
    [write_error] renders the error page, with the status of an [HTTPError]
    and 500 for every other exception. The process goes on serving. *)
Inductive Served :=
| Completed
| Failed (status_code : Z).

Definition serve `{Externals} (method : Handler unit) (req : Request) (w : World) : Served * World :=
  match method req (mkWorld (buffer w) (temp w) []) with
  | (Ret _, w') => (Completed, w')
  | (Raise e, w') =>
      let status_code := default 500%Z (exc_http e) in
      (Failed status_code,
       (write_error status_code e req (mkWorld (buffer w') (temp w') [])).2)
  end.

(** ** Sequences of submissions

    One submission is one call of [_add_task], made while serving the
    request of some client. The process starts with an empty buffer and an
    empty temporary directory. *)

Record Submission := mkSubmission {
  sub_request : Request;
  sub_id : string;
  sub_name : string;
  sub_task : Future.t
}.

Definition initial : World := mkWorld OrderedDict.empty ∅ [].

Definition submit (w : World) (s : Submission) : World :=
  (_add_task (sub_id s) (sub_name s) (sub_task s) (sub_request s) w).2.

Definition submit_all (subs : list Submission) (w : World) : World :=
  foldl submit w subs.

(** The record [_add_task] builds for a submission made on buffer [buf]. *)
Definition new_record (req : Request) (buf : OrderedDict.t CalculationTask.t)
    (id name : string) (task : Future.t) : CalculationTask.t :=
  CalculationTask.mk id name task (cookies req !! "pandexo_user")
    (Z.of_nat (length buf) + 1).

(** ** Notions used in the statements *)

(** The two status methods of [BaseHandler]. *)
Definition polls `{Externals} : list (string → Handler Response) :=
  [_get_task_response; _get_task_response_hst].

(** What holds of a future that the pool created for [fn args], whatever
    has happened to it since: it is pending or running with no exception
    stored, or finished with the outcome of [fn args] stored. *)
Definition tracks (fn : Val → Res Val) (args : Val) (f : Future.t) : Prop :=
  Future._fn f = fn ∧ Future._args f = args ∧
  match Future._state f with
  | Future.PENDING | Future.RUNNING => Future._exception f = None
  | Future.FINISHED => Future.__get_result f = fn args
  | Future.CANCELLED | Future.CANCELLED_AND_NOTIFIED => False
  end.

(** The record stored under [id] once the state of its future is [task']. *)
Definition with_task (ct : CalculationTask.t) (task' : Future.t) : CalculationTask.t :=
  CalculationTask.mk (CalculationTask.id ct) (CalculationTask.name ct) task'
    (CalculationTask.cookie ct) (CalculationTask.count ct).

(** A request is answered with a client error when the framework sends an
    error page with a status in the 4xx range. *)
Definition client_error (s : Served) : Prop :=
  ∃ status_code, s = Failed status_code ∧ (400 ≤ status_code < 500)%Z.

(** [sub] occurs in [s]. *)
Definition contains (s sub : string) : Prop :=
  ∃ pre post : string, s = pre +:+ sub +:+ post.

(** The directory after the clean-up loop. *)
Definition without_files_of (id : string) (files : gmap string (list Byte.byte)) :
    gmap string (list Byte.byte) :=
  filter (fun kv => find kv.1 id = (-1)%Z) files.

(** The bytes written to the client. *)
Definition written (es : list Emit) : list Byte.byte :=
  mjoin ((fun e => match e with WriteBytes data => data | _ => [] end) <$> es).

(** The form a job comes from: [/calculation/new] or [/calculation/newHST]. *)
Inductive Form := FormJWST | FormHST.

Record Post := mkPost {
  post_form : Form;
  post_request : Request;
  post_uuid : string;
  post_planFile : option (string * list Byte.byte);
  post_finaldata : Val
}.

Definition post_handler `{Externals} (p : Post) : Handler unit :=
  match post_form p with
  | FormJWST =>
      CalculationNewHandler.post (post_uuid p) (post_planFile p) (post_finaldata p)
  | FormHST =>
      CalculationNewHSTHandler.post (post_uuid p) (post_planFile p) (post_finaldata p)
  end.

Definition post_tag (p : Post) : string :=
  match post_form p with FormJWST => "e" | FormHST => "h" end.

Definition serve_post `{Externals} (w : World) (p : Post) : World :=
  (serve (post_handler p) (post_request p) w).2.

Definition serve_posts `{Externals} (ps : list Post) (w : World) : World :=
  foldl serve_post w ps.

(** The domain tag of a job id, in the words of the data model: its last
    character, if it has one. *)
Fixpoint domain_tag (id : string) : option string :=
  match id with
  | EmptyString => None
  | String c rest =>
      match rest with
      | EmptyString => Some (String c EmptyString)
      | String _ _ => domain_tag rest
      end
  end.

(** The listing of the registry for one owner and one domain tag, in the
    words of the registry operations: the records with that owner and that
    tag, in insertion order. *)
Definition list_by_owner (owner : option string) (tag : string)
    (records : list (string * CalculationTask.t)) : list (string * CalculationTask.t) :=
  filter (fun kv => CalculationTask.cookie kv.2 = owner ∧ domain_tag kv.1 = Some tag) records.

(** A response is the snapshot of a stored record. *)
Definition snapshot_of (resp : Response) (kv : string * CalculationTask.t) : Prop :=
  resp !! "id" = Some (VStr kv.1) ∧
  resp !! "name" = Some (VStr (CalculationTask.name kv.2)) ∧
  resp !! "count" = Some (VInt (CalculationTask.count kv.2)).

(** The job a form submits, as a call of [_add_task]. *)
Definition submission_of `{Externals} (p : Post) (calcName : string) : Submission :=
  mkSubmission (post_request p) (post_uuid p +:+ post_tag p) calcName
    (Executor.submit wrapper (post_finaldata p)).

(** The buffers the forms can build: no key twice, and every key has a
    domain tag. *)
Definition well_keyed (buf : OrderedDict.t CalculationTask.t) : Prop :=
  NoDup (OrderedDict.keys buf) ∧
  ∀ k, k ∈ OrderedDict.keys buf → is_Some (domain_tag k).

(** ** Sample data for the worked instances *)

Module Sample.

(** Collaborators for the instances: the calculation accepts a dictionary
    and rejects everything else. *)
Definition externals : Externals := {|
  render_string := fun template response => template;
  wrapper := fun finaldata =>
    match finaldata with
    | VDict _ =>
        Ret (VDict [("info_div", VStr "info"); ("timing_div", VStr "timing");
                    ("input_div", VStr "input"); ("warnings_div", VStr "warnings");
                    ("w", VList [VInt 1]); ("alpha", VList [VInt 2])])
    | _ => Raise (ValueError "bad target")
    end;
  create_component_jwst := fun result => Ret (VStr "script", VDict []);
  create_component_hst := fun result => Ret (VStr "script", VDict []);
  pickle_dumps := fun result => [Byte.x80; Byte.x04];
  np_savetxt := fun w alpha => Ret [Byte.x31; Byte.x20; Byte.x32];
  format_exception := fun e => exc_kind e +:+ ": " +:+ exc_msg e
|}.

#[local] Existing Instance externals.

Definition alice : Request :=
  mkRequest {["pandexo_user" := "alice"]} {["calcName" := "wasp-12 b"]} false.

Definition bob : Request :=
  mkRequest {["pandexo_user" := "bob"]} {["calcName" := "hd 189733 b"]} false.

Definition job_name (n : nat) : string := "job-" +:+ NilEmpty.string_of_uint (Nat.to_uint n).

Definition job (n : nat) : Submission :=
  mkSubmission alice (job_name n +:+ "e") (job_name n) (Executor.submit wrapper (VDict [])).

Definition jobs (start count : nat) : list Submission := job <$> seq start count.

(** A job whose calculation raises, after the worker has run it. *)
Definition failed_task : Future.t :=
  task_run [PoolDispatch; WorkerCompletes] (Executor.submit wrapper (VInt 0)).

Definition failed_record : CalculationTask.t :=
  CalculationTask.mk "4fd1e" "bad" failed_task (Some "alice") 1.

Definition failed_world : World := mkWorld [("4fd1e", failed_record)] ∅ [].

(** A job whose calculation has returned. *)
Definition finished_task : Future.t :=
  task_run [PoolDispatch; WorkerCompletes] (Executor.submit wrapper (VDict [])).

Definition finished_record : CalculationTask.t :=
  CalculationTask.mk "a81be" "good" finished_task (Some "alice") 1.

Definition finished_world : World := mkWorld [("a81be", finished_record)] ∅ [].

(** An HST job submitted with a planet file. *)
Definition planet_file : list Byte.byte := [Byte.x31; Byte.x0a].

Definition hst_post : Post :=
  mkPost FormHST alice "7c9e6679" (Some (".dat", planet_file)) (VDict []).

Definition jwst_post (req : Request) (uuid : string) : Post :=
  mkPost FormJWST req uuid None (VDict []).

End Sample.

(** How often the compute function of a future has been called: not yet
    while the future is pending or running, once when it is finished. *)
Definition called_as_due (f : Future.t) : Prop :=
  match Future._state f with
  | Future.PENDING | Future.RUNNING => Future.fn_calls f = 0
  | Future.FINISHED => Future.fn_calls f = 1
  | Future.CANCELLED | Future.CANCELLED_AND_NOTIFIED => False
  end.

(** [try: body / except: handler] with a bare [except]: every exception
    is caught, and what the body did before raising stays done. *)
Definition try_except {A : Type} (body handler : Handler A) : Handler A :=
  fun req w =>
    match body req w with
    | (Ret a, w') => (Ret a, w')
    | (Raise _, w') => handler req w'
    end.

Definition NameError (msg : string) : Exc := mkExc "NameError" msg None.

(** The value the JWST form stores as the noise floor of the observation:
    the path of the uploaded noise file, the number typed in, or 0.0. *)
Inductive NoiseFloor :=
| NoiseFile (path : string)
| NoiseNumber (v : Val)
| NoiseZero.

(** The noise floor block of [CalculationNewHandler.post]. [noiseFile] is
    the extension and the body of the entry of [request.files], when there
    is one; [float] is the conversion of a string to a number. The name
    [fileinfo_star] is bound nowhere in the module. *)
Definition post_noise_floor (float : string -> Res Val) (id : string)
    (noiseFile : option (string * list Byte.byte)) : Handler NoiseFloor :=
  try_except
    (observation_type ← get_argument "noiseModel";
     if bool_decide (observation_type = "user") then
       match noiseFile with
       | None => raise (KeyError "noiseFile")
       | Some (extn_noise, body) =>
           let cname_noise := id +:+ "noise" +:+ extn_noise in
           open_write cname_noise [];;
           fileinfo_star ← raise (NameError "name 'fileinfo_star' is not defined");
           open_write cname_noise (fileinfo_star : list Byte.byte);;
           mret (NoiseFile cname_noise)
       end
     else
       noisefloor ← get_argument "noisefloor";
       v ← lift (float noisefloor);
       mret (NoiseNumber v))
    (mret NoiseZero).

(** ** More sample data *)

Module MoreSamples.

(** A client that has closed the connection. *)
Definition gone : Request :=
  mkRequest {["pandexo_user" := "alice"]} {["calcName" := "wasp-12 b"]} true.



(** A form with a noise file. *)
Definition noisy : Request :=
  mkRequest {["pandexo_user" := "alice"]}
    {["calcName" := "wasp-12 b"; "noiseModel" := "user"]} false.

(** A temporary directory with files of two jobs. *)
Definition two_jobs_files : World :=
  mkWorld [] {["a81beplanet.dat" := [Byte.x31]; "77c0ehplanet.dat" := [Byte.x32]]} [].

End MoreSamples.

(** * Properties *)

(** ** The ordered dictionary *)

Section OrderedDictFacts.
Context {V : Type}.
Implicit Types (d : OrderedDict.t V) (k : string) (v : V).

Lemma od_get_None d k : OrderedDict.get k d = None ↔ k ∉ OrderedDict.keys d.
Proof.
  unfold OrderedDict.keys.
  induction d as [|[k' v'] d IH]; simpl.
  - split; [intros _; apply not_elem_of_nil | done].
  - case_decide as Hk; subst.
    + split; [done | intros Hn; exfalso; apply Hn; left].
    + rewrite IH, not_elem_of_cons.
      split; [intros ?; split; [congruence | done] | by intros [_ ?]].
Qed.

Lemma od_get_Some_elem d k v : OrderedDict.get k d = Some v → (k, v) ∈ d.
Proof.
  induction d as [|[k' v'] d IH]; simpl; [done |].
  case_decide; subst.
  - intros [= ->]. left.
  - intros Hg. right. auto.
Qed.

Lemma od_elem_get d k v :
  NoDup (OrderedDict.keys d) → (k, v) ∈ d → OrderedDict.get k d = Some v.
Proof.
  unfold OrderedDict.keys.
  induction d as [|[k' v'] d IH]; simpl; intros Hnd Hin.
  - by apply elem_of_nil in Hin.
  - apply NoDup_cons in Hnd as [Hk' Hnd].
    apply elem_of_cons in Hin as [[= -> ->] | Hin].
    + by rewrite decide_True.
    + case_decide as Hk; subst; [| auto].
      exfalso. apply Hk'. apply (list_elem_of_fmap_2 fst) in Hin. exact Hin.
Qed.

Lemma od_setitem_fresh d k v :
  k ∉ OrderedDict.keys d → OrderedDict.setitem k v d = d ++ [(k, v)].
Proof.
  unfold OrderedDict.keys.
  induction d as [|[k' v'] d IH]; simpl; [done |].
  intros [Hne Hd]%not_elem_of_cons.
  rewrite decide_False by congruence. by rewrite IH.
Qed.

Lemma od_setitem_keys_present d k v :
  k ∈ OrderedDict.keys d → OrderedDict.keys (OrderedDict.setitem k v d) = OrderedDict.keys d.
Proof.
  unfold OrderedDict.keys.
  induction d as [|[k' v'] d IH]; simpl.
  - intros Hin. by apply elem_of_nil in Hin.
  - intros Hin. case_decide as Hk; [done |]. simpl. f_equal. apply IH.
    apply elem_of_cons in Hin as [-> | Hin]; [done | exact Hin].
Qed.

Lemma od_setitem_length d k v :
  length (OrderedDict.setitem k v d) =
  if decide (k ∈ OrderedDict.keys d) then length d else S (length d).
Proof.
  case_decide as Hk.
  - rewrite <- (length_fmap fst (OrderedDict.setitem k v d)).
    fold (OrderedDict.keys (OrderedDict.setitem k v d)).
    rewrite od_setitem_keys_present by done.
    unfold OrderedDict.keys. by rewrite length_fmap.
  - rewrite od_setitem_fresh by done. rewrite length_app. simpl. lia.
Qed.

Lemma od_setitem_NoDup d k v :
  NoDup (OrderedDict.keys d) → NoDup (OrderedDict.keys (OrderedDict.setitem k v d)).
Proof.
  intros Hnd. destruct (decide (k ∈ OrderedDict.keys d)) as [Hk | Hk].
  - by rewrite od_setitem_keys_present.
  - rewrite od_setitem_fresh by done. unfold OrderedDict.keys in *.
    rewrite fmap_app. simpl. apply NoDup_app. split; [done |].
    split; [| apply NoDup_singleton].
    intros x Hx ->%list_elem_of_singleton. done.
Qed.

Lemma od_get_setitem_eq d k v : OrderedDict.get k (OrderedDict.setitem k v d) = Some v.
Proof.
  induction d as [|[k' v'] d IH]; simpl.
  - by rewrite decide_True.
  - case_decide as Hk; simpl; subst.
    + by rewrite decide_True.
    + by rewrite decide_False.
Qed.

Lemma od_get_setitem_ne d k k' v :
  k ≠ k' → OrderedDict.get k' (OrderedDict.setitem k v d) = OrderedDict.get k' d.
Proof.
  intros Hne. induction d as [|[k0 v0] d IH]; simpl.
  - by rewrite decide_False.
  - case_decide as Hk; simpl; subst.
    + by rewrite !decide_False by congruence.
    + case_decide; [done | exact IH].
Qed.

End OrderedDictFacts.

(** ** Insertion and eviction *)

(** [_add_task] never raises; it changes the buffer and nothing else. *)
Lemma _add_task_run (id name : string) (task : Future.t) (req : Request) (w : World) :
  _add_task id name task req w =
  (Ret tt,
   mkWorld
     (let buf := OrderedDict.setitem id (new_record req (buffer w) id name task) (buffer w) in
      if bool_decide (OrderedDict.len buf > 100)%Z then tail buf else buf)
     (temp w) (out w)).
Proof.
  unfold _add_task, new_record, OrderedDict.len.
  unfold mbind, Handler_bind, mret, Handler_ret, get_buffer, get_cookie, put_buffer, lift.
  simpl. case_bool_decide as Hlen; [| done].
  destruct (OrderedDict.setitem _ _ _) as [|kv buf'] eqn:Hbuf; [simpl in Hlen; lia |].
  reflexivity.
Qed.

Lemma submit_buffer (w : World) (s : Submission) :
  buffer (submit w s) =
  let buf := OrderedDict.setitem (sub_id s)
               (new_record (sub_request s) (buffer w) (sub_id s) (sub_name s) (sub_task s))
               (buffer w) in
  if bool_decide (OrderedDict.len buf > 100)%Z then tail buf else buf.
Proof. unfold submit. by rewrite _add_task_run. Qed.

Lemma submit_all_snoc (subs : list Submission) (s : Submission) (w : World) :
  submit_all (subs ++ [s]) w = submit (submit_all subs w) s.
Proof. unfold submit_all. by rewrite foldl_app. Qed.

Lemma submit_size_le (w : World) (s : Submission) :
  length (buffer w) ≤ 100 → length (buffer (submit w s)) ≤ 100.
Proof.
  intros Hw. rewrite submit_buffer. simpl. unfold OrderedDict.len.
  pose proof (od_setitem_length (buffer w) (sub_id s)
    (new_record (sub_request s) (buffer w) (sub_id s) (sub_name s) (sub_task s))) as Hl.
  case_bool_decide as Hgt.
  - destruct (OrderedDict.setitem _ _ _); simpl in *; case_decide; lia.
  - lia.
Qed.

Lemma submit_all_size_le (subs : list Submission) (w : World) :
  length (buffer w) ≤ 100 → length (buffer (submit_all subs w)) ≤ 100.
Proof.
  revert w. induction subs as [|s subs IH]; intros w Hw; [done |].
  simpl. apply IH. by apply submit_size_le.
Qed.

Lemma submit_NoDup (w : World) (s : Submission) :
  NoDup (OrderedDict.keys (buffer w)) → NoDup (OrderedDict.keys (buffer (submit w s))).
Proof.
  intros Hnd. rewrite submit_buffer. simpl.
  pose proof (od_setitem_NoDup (buffer w) (sub_id s)
    (new_record (sub_request s) (buffer w) (sub_id s) (sub_name s) (sub_task s)) Hnd) as Hs.
  case_bool_decide; [| done].
  destruct (OrderedDict.setitem _ _ _) as [|kv buf']; [done |].
  simpl. unfold OrderedDict.keys in *. simpl in Hs. by apply NoDup_cons in Hs as [_ ?].
Qed.

Lemma submit_all_NoDup (subs : list Submission) (w : World) :
  NoDup (OrderedDict.keys (buffer w)) → NoDup (OrderedDict.keys (buffer (submit_all subs w))).
Proof.
  revert w. induction subs as [|s subs IH]; intros w Hw; [done |].
  simpl. apply IH. by apply submit_NoDup.
Qed.

(** With fresh ids and as long as the capacity is not exceeded, the keys
    of the buffer are the submitted ids in order. *)
Lemma submit_all_keys_below (subs : list Submission) :
  NoDup (sub_id <$> subs) → length subs ≤ 100 →
  OrderedDict.keys (buffer (submit_all subs initial)) = sub_id <$> subs.
Proof.
  induction subs as [|s subs IH] using rev_ind; [done |].
  rewrite fmap_app, length_app. simpl. intros Hnd Hlen.
  apply NoDup_app in Hnd as (Hnd & Hfresh & _).
  rewrite submit_all_snoc, submit_buffer. simpl.
  specialize (IH Hnd ltac:(lia)).
  assert (sub_id s ∉ OrderedDict.keys (buffer (submit_all subs initial))) as Hnot.
  { rewrite IH. intros Hin. apply (Hfresh _ Hin). left. }
  rewrite od_setitem_fresh by done.
  rewrite bool_decide_false.
  - unfold OrderedDict.keys in *. by rewrite fmap_app, IH.
  - unfold OrderedDict.len. rewrite length_app. simpl.
    rewrite <- (length_fmap fst (buffer _)). fold (OrderedDict.keys (buffer (submit_all subs initial))).
    rewrite IH, length_fmap. lia.
Qed.

(** C1. Starting from the empty buffer, after any sequence of submissions
    the buffer holds at most 100 records. A submission with a new id into a
    buffer of 100 records returns normally, emits nothing and leaves the
    buffer without its first (oldest) record and with the new record last.
    After 101 submissions with distinct ids the buffer holds 100 records,
    the id submitted first is not a key any more, and the keys are the 100
    other ids in the order of submission. *)
Theorem C1_capacity_and_eviction :
  (∀ subs : list Submission, length (buffer (submit_all subs initial)) ≤ 100) ∧
  (∀ (w : World) (s : Submission),
     length (buffer w) = 100 → sub_id s ∉ OrderedDict.keys (buffer w) →
     ∃ oldest rest,
       buffer w = oldest :: rest ∧
       _add_task (sub_id s) (sub_name s) (sub_task s) (sub_request s) w =
       (Ret tt,
        mkWorld
          (rest ++ [(sub_id s,
                     new_record (sub_request s) (buffer w) (sub_id s) (sub_name s) (sub_task s))])
          (temp w) (out w))) ∧
  (∀ (first : Submission) (rest : list Submission),
     length rest = 100 → NoDup (sub_id <$> first :: rest) →
     let w := submit_all (first :: rest) initial in
     length (buffer w) = 100 ∧
     OrderedDict.get (sub_id first) (buffer w) = None ∧
     OrderedDict.keys (buffer w) = sub_id <$> rest).
Proof.
  split; [| split].
  - intros subs. apply submit_all_size_le. simpl. lia.
  - intros w s Hlen Hfresh.
    destruct (buffer w) as [|oldest rest] eqn:Hbuf; [done |].
    exists oldest, rest. split; [done |].
    rewrite _add_task_run, Hbuf. cbv zeta.
    rewrite od_setitem_fresh by done.
    rewrite bool_decide_true; [done |].
    unfold OrderedDict.len. rewrite length_app. simpl in *. lia.
  - intros first rest Hlen Hnd w.
    destruct rest as [|last front _] using rev_ind; [done |].
    rewrite length_app in Hlen. simpl in Hlen.
    assert (length (first :: front) ≤ 100) as Hfront by (simpl; lia).
    change (first :: front ++ [last]) with ((first :: front) ++ [last]) in *.
    rewrite fmap_app in Hnd. apply NoDup_app in Hnd as (Hnd & Hfresh & _).
    pose proof (submit_all_keys_below _ Hnd Hfront) as Hkeys.
    assert (OrderedDict.keys (buffer w) = sub_id <$> front ++ [last]) as Hw.
    { subst w. rewrite submit_all_snoc, submit_buffer.
      remember (submit_all (first :: front) initial) as w0 eqn:Hw0.
      assert (sub_id last ∉ OrderedDict.keys (buffer w0)) as Hnot.
      { rewrite Hkeys. intros Hin. apply (Hfresh _ Hin). left. }
      cbv zeta. rewrite od_setitem_fresh by done.
      unfold OrderedDict.len, OrderedDict.keys in *.
      assert (length (buffer w0) = S (length front)) as Hl0.
      { rewrite <- (length_fmap fst (buffer w0)), Hkeys, length_fmap. done. }
      rewrite bool_decide_true by (rewrite length_app; simpl; lia).
      destruct (buffer w0) as [|kv buf]; [done |].
      simpl in Hkeys. injection Hkeys as _ Hkeys.
      simpl. rewrite !fmap_app. f_equal. exact Hkeys. }
    split; [| split; [| exact Hw]].
    + rewrite <- (length_fmap fst (buffer w)). fold (OrderedDict.keys (buffer w)).
      rewrite Hw, length_fmap, length_app. simpl. lia.
    + apply od_get_None. rewrite Hw, fmap_app.
      intros [Hin | Hin]%elem_of_app.
      * simpl in Hnd. apply NoDup_cons in Hnd as [Hnd _]. done.
      * apply (Hfresh (sub_id first)); [left | exact Hin].
Qed.

(** ** The display ordinal *)

Lemma od_get_tail {V : Type} (d : OrderedDict.t V) (k : string) (v : V) :
  NoDup (OrderedDict.keys d) → OrderedDict.get k (tail d) = Some v →
  OrderedDict.get k d = Some v.
Proof.
  intros Hnd Hget. apply od_elem_get; [done |].
  apply od_get_Some_elem in Hget. destruct d; [done | by right].
Qed.

Lemma submit_new_present (w : World) (s : Submission) :
  length (buffer w) ≤ 100 →
  OrderedDict.get (sub_id s) (buffer (submit w s)) =
  Some (new_record (sub_request s) (buffer w) (sub_id s) (sub_name s) (sub_task s)).
Proof.
  intros Hlen. rewrite submit_buffer. cbv zeta.
  set (ct := new_record _ _ _ _ _).
  case_bool_decide as Hgt; [| apply od_get_setitem_eq].
  unfold OrderedDict.len in Hgt.
  rewrite od_setitem_length in Hgt. case_decide as Hin; [lia |].
  rewrite od_setitem_fresh by done.
  destruct (buffer w) as [|kv buf] eqn:Hbuf; [simpl in Hgt; lia |].
  simpl. rewrite <- (od_setitem_fresh buf (sub_id s) ct).
  - apply od_get_setitem_eq.
  - intros Hk. apply Hin. unfold OrderedDict.keys in *. simpl. by right.
Qed.

Lemma submit_other_preserved (w : World) (s : Submission) (id' : string)
    (ct' : CalculationTask.t) :
  NoDup (OrderedDict.keys (buffer w)) → id' ≠ sub_id s →
  OrderedDict.get id' (buffer (submit w s)) = Some ct' →
  OrderedDict.get id' (buffer w) = Some ct'.
Proof.
  intros Hnd Hne. rewrite submit_buffer. cbv zeta.
  set (ct := new_record _ _ _ _ _).
  pose proof (od_setitem_NoDup (buffer w) (sub_id s) ct Hnd) as Hnd'.
  case_bool_decide.
  - intros Hget%od_get_tail; [| done]. by rewrite od_get_setitem_ne in Hget.
  - intros Hget. by rewrite od_get_setitem_ne in Hget.
Qed.

Lemma submit_all_other_preserved (more : list Submission) (w : World) (id' : string)
    (ct' : CalculationTask.t) :
  NoDup (OrderedDict.keys (buffer w)) → id' ∉ sub_id <$> more →
  OrderedDict.get id' (buffer (submit_all more w)) = Some ct' →
  OrderedDict.get id' (buffer w) = Some ct'.
Proof.
  revert w. induction more as [|m more IH]; intros w Hnd Hnot; [done |].
  simpl in *. apply not_elem_of_cons in Hnot as [Hne Hnot]. intros Hget.
  apply IH in Hget; [| by apply submit_NoDup | done].
  by eapply submit_other_preserved.
Qed.

(** C6. In any reachable state, the record stored by a submission has
    [count] equal to the number of records in the buffer just before the
    insertion plus one; every other record that is still in the buffer
    after the insertion (and its possible eviction) is the record that was
    there before, [count] included; and whatever is submitted later under
    other ids, evicting or not, the record keeps the [count] it was given
    for as long as it stays in the buffer. *)
Theorem C6_count_assigned_once (subs : list Submission) (s : Submission) :
  let w := submit_all subs initial in
  (∃ ct, OrderedDict.get (sub_id s) (buffer (submit w s)) = Some ct ∧
         CalculationTask.count ct = (Z.of_nat (length (buffer w)) + 1)%Z) ∧
  (∀ id' ct', id' ≠ sub_id s →
     OrderedDict.get id' (buffer (submit w s)) = Some ct' →
     OrderedDict.get id' (buffer w) = Some ct') ∧
  (∀ more ct, sub_id s ∉ sub_id <$> more →
     OrderedDict.get (sub_id s) (buffer (submit_all more (submit w s))) = Some ct →
     CalculationTask.count ct = (Z.of_nat (length (buffer w)) + 1)%Z).
Proof.
  intros w.
  assert (length (buffer w) ≤ 100) as Hlen.
  { apply submit_all_size_le. simpl. lia. }
  assert (NoDup (OrderedDict.keys (buffer w))) as Hnd.
  { apply submit_all_NoDup. apply NoDup_nil_2. }
  split; [| split].
  - eexists. split; [by apply submit_new_present | done].
  - intros id' ct' Hne Hget. by eapply submit_other_preserved.
  - intros more ct Hnot Hget.
    apply submit_all_other_preserved in Hget; [| by apply submit_NoDup | done].
    rewrite submit_new_present in Hget by done. by injection Hget as <-.
Qed.

(** ** The status projection *)

Section Projection.
Context `{Externals}.

Lemma task_response_missing (template id : string) (req : Request) (w : World) :
  OrderedDict.get id (buffer w) = None →
  task_response_with template id req w =
  (Raise (AttributeError "'NoneType' object has no attribute 'task'"), w).
Proof.
  intros Hget. unfold task_response_with.
  unfold mbind, Handler_bind, get_buffer. rewrite Hget. reflexivity.
Qed.

(** What the projection returns for a stored record: the world is left as
    it was, and the dictionary has the keys below. *)
Lemma task_response_found (template id : string) (req : Request) (w : World)
    (ct : CalculationTask.t) :
  OrderedDict.get id (buffer w) = Some ct →
  ∃ resp : Response,
    task_response_with template id req w = (Ret resp, w) ∧
    resp !! "id" = Some (VStr id) ∧
    resp !! "name" = Some (VStr (CalculationTask.name ct)) ∧
    resp !! "count" = Some (VInt (CalculationTask.count ct)) ∧
    resp !! "state" =
      Some (VStr (if Future.running (CalculationTask.task ct) then "running"
                  else if Future.done (CalculationTask.task ct) then "finished"
                  else if Future.cancelled (CalculationTask.task ct) then "cancelled"
                  else "pending")) ∧
    resp !! "code" =
      (if Future.running (CalculationTask.task ct) then Some (VInt 202) else None).
Proof.
  intros Hget. unfold task_response_with.
  unfold mbind, Handler_bind, mret, Handler_ret, get_buffer, getattr. rewrite Hget.
  eexists. split; [reflexivity |].
  destruct (Future.running (CalculationTask.task ct)),
    (Future.done (CalculationTask.task ct)),
    (Future.cancelled (CalculationTask.task ct));
    by repeat split; simplify_map_eq.
Qed.

Lemma poll_cases (poll : string → Handler Response) :
  poll ∈ polls → ∃ template, poll = task_response_with template.
Proof.
  unfold polls. intros Hin.
  apply elem_of_cons in Hin as [-> | Hin]; [by eexists |].
  apply list_elem_of_singleton in Hin as ->. by eexists.
Qed.

End Projection.

(** C4. For a record stored under [id], both status methods return a
    dictionary whose state is "running" when the future is running, else
    "finished" when it is done, else "cancelled" when it is cancelled, else
    "pending"; the key "code" is present exactly when the state is
    "running", and then holds 202. *)
Theorem C4_state_precedence `{Externals} (req : Request) (w : World) (id : string)
    (ct : CalculationTask.t) (poll : string → Handler Response) :
  OrderedDict.get id (buffer w) = Some ct →
  poll ∈ polls →
  ∃ resp : Response,
    poll id req w = (Ret resp, w) ∧
    resp !! "state" =
      Some (VStr (if Future.running (CalculationTask.task ct) then "running"
                  else if Future.done (CalculationTask.task ct) then "finished"
                  else if Future.cancelled (CalculationTask.task ct) then "cancelled"
                  else "pending")) ∧
    (is_Some (resp !! "code") ↔ resp !! "state" = Some (VStr "running")) ∧
    (is_Some (resp !! "code") → resp !! "code" = Some (VInt 202)).
Proof.
  intros Hget [template ->]%poll_cases.
  destruct (task_response_found template id req w ct Hget)
    as (resp & Hrun & _ & _ & _ & Hstate & Hcode).
  exists resp. split; [done |]. split; [done |].
  rewrite Hstate, Hcode.
  destruct (Future.running (CalculationTask.task ct)),
    (Future.done (CalculationTask.task ct)),
    (Future.cancelled (CalculationTask.task ct));
    (split; [split; [intros [? [=]] || done | intros [=] || by eexists] |]);
    by intros [? [=]] || done.
Qed.

(** ** The job handle *)

Lemma tracks_submit (fn : Val → Res Val) (args : Val) :
  tracks fn args (Executor.submit fn args).
Proof. by repeat split. Qed.

Lemma tracks_dispatch (fn : Val → Res Val) (args : Val) (f : Future.t) :
  tracks fn args f → tracks fn args (Future.set_running_or_notify_cancel f).
Proof.
  intros (Hfn & Hargs & Hst). unfold Future.set_running_or_notify_cancel.
  destruct f as [[] res exc fn' args' calls]; simpl in *; by repeat split.
Qed.

Lemma tracks_worker_run (fn : Val → Res Val) (args : Val) (f : Future.t) :
  tracks fn args f → tracks fn args (Future.worker_run f).
Proof.
  intros (Hfn & Hargs & Hst). unfold Future.worker_run.
  destruct f as [[] res exc fn' args' calls]; simpl in *; subst;
    try by repeat split.
  destruct (fn args) as [v | e] eqn:Hout; by repeat split.
Qed.

Lemma tracks_result (fn : Val → Res Val) (args : Val) (f : Future.t) :
  tracks fn args f →
  (Future.result f).1 = fn args ∧ tracks fn args (Future.result f).2.
Proof.
  intros Htr. unfold Future.result.
  destruct (Future._state f) eqn:Hst.
  - pose proof (tracks_worker_run _ _ _ (tracks_dispatch _ _ _ Htr)) as Htr'.
    split; [| exact Htr']. simpl.
    destruct Htr' as (_ & _ & Hst'). revert Hst'.
    unfold Future.set_running_or_notify_cancel, Future.worker_run. rewrite Hst. simpl.
    destruct Htr as (-> & -> & _). by destruct (fn args).
  - pose proof (tracks_worker_run _ _ _ (tracks_dispatch _ _ _ Htr)) as Htr'.
    split; [| exact Htr']. simpl.
    destruct Htr' as (_ & _ & Hst'). revert Hst'.
    unfold Future.set_running_or_notify_cancel, Future.worker_run. rewrite Hst. simpl.
    rewrite Hst. destruct Htr as (-> & -> & _). by destruct (fn args).
  - destruct Htr as (_ & _ & Hf). by rewrite Hst in Hf.
  - destruct Htr as (_ & _ & Hf). by rewrite Hst in Hf.
  - split; [| exact Htr]. destruct Htr as (_ & _ & Hf). by rewrite Hst in Hf.
Qed.

Lemma tracks_step (fn : Val → Res Val) (args : Val) (f : Future.t) (ev : TaskEvent) :
  tracks fn args f → tracks fn args (task_step f ev).
Proof.
  destruct ev; simpl.
  - apply tracks_dispatch.
  - apply tracks_worker_run.
  - apply tracks_result.
Qed.

Lemma tracks_run (fn : Val → Res Val) (args : Val) (evs : list TaskEvent) (f : Future.t) :
  tracks fn args f → tracks fn args (task_run evs f).
Proof.
  revert f. induction evs as [|ev evs IH]; intros f Htr; [done |].
  simpl. apply IH. by apply tracks_step.
Qed.

(** After [result()] has returned or raised, the future is done. *)
Lemma result_done (f : Future.t) :
  Future.running (Future.result f).2 = false ∧ Future.done (Future.result f).2 = true.
Proof.
  unfold Future.result, Future.running, Future.done.
  destruct f as [[] res exc fn args calls]; simpl; try done;
    unfold Future.worker_run; simpl; by destruct (fn args).
Qed.

(** [result()] on a future that is done changes nothing. *)
Lemma result_of_done (f : Future.t) :
  Future.done f = true → (Future.result f).2 = f.
Proof. unfold Future.result, Future.done. by destruct (Future._state f). Qed.

Lemma od_setitem_same {V : Type} (d : OrderedDict.t V) (k : string) (v : V) :
  OrderedDict.get k d = Some v → OrderedDict.setitem k v d = d.
Proof.
  induction d as [|[k' v'] d IH]; simpl; [done |].
  case_decide; [by intros [= ->] | intros Hget; by rewrite IH].
Qed.

Lemma _get_task_result_found (id : string) (req : Request) (w : World)
    (ct : CalculationTask.t) :
  OrderedDict.get id (buffer w) = Some ct →
  _get_task_result id req w =
  ((Future.result (CalculationTask.task ct)).1,
   mkWorld
     (OrderedDict.setitem id
        (with_task ct (Future.result (CalculationTask.task ct)).2) (buffer w))
     (temp w) (out w)).
Proof.
  intros Hget. unfold _get_task_result, store_task.
  unfold mbind, Handler_bind, mret, Handler_ret, get_buffer, getattr, put_buffer, lift.
  rewrite Hget. simpl.
  destruct (Future.result (CalculationTask.task ct)) as [r task'] eqn:Hres.
  simpl. rewrite Hget. simpl. by destruct r.
Qed.

Lemma _get_task_result_missing (id : string) (req : Request) (w : World) :
  OrderedDict.get id (buffer w) = None →
  _get_task_result id req w =
  (Raise (AttributeError "'NoneType' object has no attribute 'task'"), w).
Proof.
  intros Hget. unfold _get_task_result.
  unfold mbind, Handler_bind, get_buffer. rewrite Hget. reflexivity.
Qed.

(** The cases of the projection, in the order in which it asks. *)
Ltac case_handle t :=
  destruct (Future.running t);
    [| destruct (Future.done t); [| destruct (Future.cancelled t)]].

(** C3. Take a record whose future was created by [submit] for [fn args]
    and has since seen dispatch and completion events but no call of
    [result()]. Both status methods return a dictionary whose state is not
    "failed"; when the worker has stored the exception raised by [fn] in
    the future, the state reported is "finished". *)
Theorem C3_poll_before_result_never_failed `{Externals} (req : Request) (w : World)
    (id : string) (ct : CalculationTask.t) (fn : Val → Res Val) (args : Val)
    (evs : list TaskEvent) (poll : string → Handler Response) :
  OrderedDict.get id (buffer w) = Some ct →
  CalculationTask.task ct = task_run evs (Executor.submit fn args) →
  ResultCalled ∉ evs →
  poll ∈ polls →
  ∃ resp : Response,
    poll id req w = (Ret resp, w) ∧
    resp !! "state" ≠ Some (VStr "failed") ∧
    (∀ e, fn args = Raise e → Future._exception (CalculationTask.task ct) = Some e →
          resp !! "state" = Some (VStr "finished")).
Proof.
  intros Hget Htask _ [template ->]%poll_cases.
  destruct (task_response_found template id req w ct Hget)
    as (resp & Hrun & _ & _ & _ & Hstate & _).
  exists resp. split; [done |]. rewrite Hstate. split.
  - by case_handle (CalculationTask.task ct).
  - intros e _ Hexc.
    pose proof (tracks_run fn args evs _ (tracks_submit fn args)) as (_ & _ & Hst).
    rewrite <- Htask in Hst. unfold Future.running, Future.done.
    destruct (Future._state (CalculationTask.task ct)); simpl; try done; congruence.
Qed.

(** C10. For any stored record, whatever the state of its future, both
    status methods report one of "running", "finished", "cancelled" and
    "pending". A future that finished with an exception is reported as
    "finished"; and when retrieving the result has raised, the status
    reported afterwards is "finished". *)
Theorem C10_failed_unreachable `{Externals} (req : Request) (w : World) (id : string)
    (ct : CalculationTask.t) (poll : string → Handler Response) :
  OrderedDict.get id (buffer w) = Some ct →
  poll ∈ polls →
  ∃ resp : Response,
    poll id req w = (Ret resp, w) ∧
    (∃ st, resp !! "state" = Some (VStr st) ∧
           st ∈ ["running"; "finished"; "cancelled"; "pending"]) ∧
    resp !! "state" ≠ Some (VStr "failed") ∧
    (∀ e, Future._state (CalculationTask.task ct) = Future.FINISHED →
          Future._exception (CalculationTask.task ct) = Some e →
          resp !! "state" = Some (VStr "finished")) ∧
    (∀ req1 e w1, _get_task_result id req1 w = (Raise e, w1) →
       ∃ resp1 : Response,
         poll id req w1 = (Ret resp1, w1) ∧
         resp1 !! "state" = Some (VStr "finished")).
Proof.
  intros Hget [template ->]%poll_cases.
  destruct (task_response_found template id req w ct Hget)
    as (resp & Hrun & _ & _ & _ & Hstate & _).
  exists resp. split; [done |]. rewrite Hstate. repeat split.
  - eexists. split; [reflexivity |].
    case_handle (CalculationTask.task ct); set_solver.
  - by case_handle (CalculationTask.task ct).
  - intros e Hst _. unfold Future.running, Future.done. by rewrite Hst.
  - intros req1 e w1. rewrite (_get_task_result_found id req1 w ct Hget).
    intros [= _ <-].
    set (ct1 := with_task ct _).
    destruct (task_response_found template id req
                (mkWorld (OrderedDict.setitem id ct1 (buffer w)) (temp w) (out w)) ct1)
      as (resp1 & Hrun1 & _ & _ & _ & Hstate1 & _).
    { simpl. apply od_get_setitem_eq. }
    exists resp1. split; [done |]. rewrite Hstate1. subst ct1. simpl.
    by destruct (result_done (CalculationTask.task ct)) as [-> ->].
Qed.

(** C7. Take a record whose future was created by [submit] for [fn args],
    where [fn args] raises [e]. Whatever has happened to the future since,
    [_get_task_result] raises that same exception (class, message and all),
    and so does every handler that retrieves the result; served through the
    framework, the request is answered with the error page that shows the
    formatted exception. *)
Theorem C7_compute_failure_propagates `{Externals} (req : Request) (w : World)
    (id : string) (ct : CalculationTask.t) (fn : Val → Res Val) (args : Val)
    (evs : list TaskEvent) (e : Exc) (handler : string → Handler unit) :
  OrderedDict.get id (buffer w) = Some ct →
  CalculationTask.task ct = task_run evs (Executor.submit fn args) →
  fn args = Raise e →
  handler ∈ [CalculationViewHandler.get; CalculationViewHSTHandler.get;
             CalculationDownloadHandler.get; CalculationDownloadPandInHandler.get] →
  (_get_task_result id req w).1 = Raise e ∧
  (handler id req w).1 = Raise e ∧
  (serve (handler id) req w).1 = Failed (default 500%Z (exc_http e)) ∧
  out (serve (handler id) req w).2 =
    [RenderError (default 500%Z (exc_http e)) (format_exception e)].
Proof.
  intros Hget Htask Hfn Hhandler.
  pose proof (tracks_result fn args _ (tracks_run fn args evs _ (tracks_submit fn args)))
    as [Hres _].
  rewrite <- Htask, Hfn in Hres.
  assert (∀ w0, buffer w0 = buffer w → (_get_task_result id req w0).1 = Raise e) as Hraise.
  { intros w0 Hw0. rewrite (_get_task_result_found id req w0 ct) by by rewrite Hw0. done. }
  split; [by apply Hraise |].
  assert (∀ w0, buffer w0 = buffer w → (handler id req w0).1 = Raise e) as Hh.
  { intros w0 Hw0. specialize (Hraise w0 Hw0).
    repeat (apply elem_of_cons in Hhandler as [-> | Hhandler]);
      [| | | | by apply elem_of_nil in Hhandler];
      unfold CalculationViewHandler.get, CalculationViewHSTHandler.get,
        CalculationDownloadHandler.get, CalculationDownloadPandInHandler.get;
      unfold mbind at 1; unfold Handler_bind;
      destruct (_get_task_result id req w0) as [r w'];
      simpl in Hraise; by subst r. }
  split; [by apply Hh |].
  unfold serve.
  specialize (Hh (mkWorld (buffer w) (temp w) []) eq_refl).
  destruct (handler id req _) as [r w'].
  simpl in Hh. subst r. done.
Qed.

(** C8. For a stored record whose future is done, retrieving the result
    twice in a row gives the same outcome both times, be it a value or an
    exception, and neither call changes anything: the stored future, with
    its count of calls of the compute function, is as before. *)
Theorem C8_result_idempotent (req1 req2 : Request) (w : World) (id : string)
    (ct : CalculationTask.t) :
  OrderedDict.get id (buffer w) = Some ct →
  Future.done (CalculationTask.task ct) = true →
  let first := _get_task_result id req1 w in
  let second := _get_task_result id req2 first.2 in
  first.1 = second.1 ∧
  first.2 = w ∧ second.2 = w ∧
  (∀ ct2, OrderedDict.get id (buffer second.2) = Some ct2 →
          Future.fn_calls (CalculationTask.task ct2) =
          Future.fn_calls (CalculationTask.task ct)).
Proof.
  intros Hget Hdone.
  assert (∀ req, _get_task_result id req w =
                 ((Future.result (CalculationTask.task ct)).1, w)) as Hsame.
  { intros req. rewrite (_get_task_result_found id req w ct Hget).
    rewrite result_of_done by done.
    replace (with_task ct (CalculationTask.task ct)) with ct by by destruct ct.
    rewrite od_setitem_same by done. by destruct w. }
  intros first second. subst first second.
  rewrite (Hsame req1). cbn [fst snd]. rewrite (Hsame req2). cbn [fst snd].
  repeat split. intros ct2. rewrite Hget. by intros [= <-].
Qed.

(** ** Unknown ids *)

(** C2, as amended. The lookup is by exact key: it finds a record exactly
    for the ids that are keys of the buffer. For an id that is not a key,
    both status handlers raise the [AttributeError] of the attribute access
    on [None]; the framework answers with the error page for status 500 and
    the buffer and the temporary directory are as before. *)
Theorem C2_unknown_id_server_error `{Externals} (req : Request) (w : World) (id : string)
    (handler : string → Handler unit) :
  id ∉ OrderedDict.keys (buffer w) →
  handler ∈ [CalculationStatusHandler.get; CalculationStatusHSTHandler.get] →
  (∀ id', is_Some (OrderedDict.get id' (buffer w)) ↔ id' ∈ OrderedDict.keys (buffer w)) ∧
  OrderedDict.get id (buffer w) = None ∧
  handler id req w =
    (Raise (AttributeError "'NoneType' object has no attribute 'task'"), w) ∧
  serve (handler id) req w =
    (Failed 500,
     mkWorld (buffer w) (temp w)
       [RenderError 500
          (format_exception (AttributeError "'NoneType' object has no attribute 'task'"))]).
Proof.
  intros Hnot Hhandler.
  assert (OrderedDict.get id (buffer w) = None) as Hget by by apply od_get_None.
  split; [| split; [done |]].
  - intros id'. rewrite <- not_eq_None_Some, od_get_None.
    destruct (decide (id' ∈ OrderedDict.keys (buffer w))); naive_solver.
  - assert (∀ w0, buffer w0 = buffer w →
              handler id req w0 =
              (Raise (AttributeError "'NoneType' object has no attribute 'task'"), w0))
      as Hraise.
    { intros w0 Hw0.
      repeat (apply elem_of_cons in Hhandler as [-> | Hhandler]);
        [| | by apply elem_of_nil in Hhandler];
        unfold CalculationStatusHandler.get, CalculationStatusHSTHandler.get,
          _get_task_response, _get_task_response_hst;
        unfold mbind at 1; unfold Handler_bind;
        by rewrite task_response_missing by by rewrite Hw0. }
    split; [by apply Hraise |].
    unfold serve. by rewrite Hraise.
Qed.

(** ** Files of the temporary directory *)

Lemma prefix_true_iff (sub s : string) :
  String.prefix sub s = true ↔ ∃ post : string, s = sub +:+ post.
Proof.
  revert s. induction sub as [|a sub IH]; intros [|b s]; simpl.
  - split; [intros _; by exists "" | done].
  - split; [intros _; by exists (String b s) | done].
  - split; [done | by intros [? [=]]].
  - destruct (ascii_dec a b) as [-> | Hne].
    + rewrite IH. split; intros [post Hpost]; exists post.
      * by rewrite Hpost.
      * by injection Hpost.
    + split; [done | intros [post [= ? _]]; done].
Qed.

Lemma find_from_eq (i : Z) (s sub : string) :
  find_from i s sub =
  if String.prefix sub s then i
  else match s with
       | EmptyString => (-1)%Z
       | String _ s' => find_from (i + 1)%Z s' sub
       end.
Proof. by destruct s. Qed.

Lemma find_from_contains (i : Z) (s sub : string) :
  (0 ≤ i)%Z → find_from i s sub ≠ (-1)%Z ↔ contains s sub.
Proof.
  revert i. induction s as [|c s IH]; intros i Hi; rewrite find_from_eq.
  - destruct (String.prefix sub "") eqn:Hpre.
    + split; [intros _ | lia].
      apply prefix_true_iff in Hpre as [post Hpost]. by exists "", post.
    + split; [done |]. intros (pre & post & Heq).
      destruct pre; [| done]. simpl in Heq.
      assert (String.prefix sub "" = true) as Ht by (apply prefix_true_iff; by exists post).
      congruence.
  - destruct (String.prefix sub (String c s)) eqn:Hpre.
    + split; [intros _ | lia].
      apply prefix_true_iff in Hpre as [post Hpost]. by exists "", post.
    + rewrite (IH (i + 1)%Z) by lia.
      split.
      * intros (pre & post & ->). by exists (String c pre), post.
      * intros (pre & post & Heq). destruct pre as [|c' pre].
        -- simpl in Heq.
           assert (String.prefix sub (String c s) = true) as Ht
             by (apply prefix_true_iff; by exists post).
           congruence.
        -- injection Heq as _ ->. by exists pre, post.
Qed.

(** [i.find(id) != -1] says that the name contains the id. *)
Lemma find_contains (s sub : string) : find s sub ≠ (-1)%Z ↔ contains s sub.
Proof. by apply find_from_contains. Qed.

Lemma for_each_remove (id : string) (req : Request) (names : list string) (w : World) :
  NoDup names → (∀ n, n ∈ names → is_Some (temp w !! n)) →
  for_each names (fun i =>
    if bool_decide (find i id ≠ (-1)%Z) then os_remove i else mret tt) req w =
  (Ret tt,
   mkWorld (buffer w)
     (foldl (fun files i => if bool_decide (find i id ≠ (-1)%Z) then delete i files else files)
        (temp w) names)
     (out w)).
Proof.
  revert w. induction names as [|n names IH]; intros w Hnd Hall; simpl.
  - by destruct w.
  - apply NoDup_cons in Hnd as [Hn Hnd].
    unfold mbind, Handler_bind.
    case_bool_decide as Hfind.
    + unfold os_remove. destruct (Hall n ltac:(left)) as [data ->].
      rewrite IH; [done | done |]. simpl. intros n' Hn'.
      rewrite lookup_delete_ne by (intros ->; done). apply Hall. by right.
    + unfold mret, Handler_ret. rewrite IH; [done | done |].
      intros n' Hn'. apply Hall. by right.
Qed.

Lemma foldl_delete_lookup (id : string) (names : list string)
    (files : gmap string (list Byte.byte)) (n : string) :
  foldl (fun files i => if bool_decide (find i id ≠ (-1)%Z) then delete i files else files)
    files names !! n =
  if bool_decide (n ∈ names ∧ find n id ≠ (-1)%Z) then None else files !! n.
Proof.
  revert files. induction names as [|n0 names IH]; intros files; simpl.
  - done.
  - rewrite IH. clear IH.
    destruct (decide (find n id = (-1)%Z)) as [Hf | Hf].
    { rewrite !(bool_decide_false (_ ∧ _)) by tauto.
      case_bool_decide as Hf0; try done.
      apply lookup_delete_ne. by intros ->. }
    destruct (decide (n ∈ names)) as [Hin | Hin].
    { rewrite !(bool_decide_true (_ ∧ _)); [done | split; [by right | done] | done]. }
    rewrite (bool_decide_false (n ∈ names ∧ _)) by tauto.
    destruct (decide (n0 = n)) as [-> | Hne].
    + rewrite (bool_decide_true (find n id ≠ (-1)%Z)) by done.
      rewrite lookup_delete_eq.
      rewrite bool_decide_true; [done | split; [left | done]].
    + rewrite (bool_decide_false (n ∈ n0 :: names ∧ _)).
      * case_bool_decide; try done. by rewrite lookup_delete_ne.
      * intros [[-> | ?]%elem_of_cons _]; done.
Qed.

(** The loop never raises, and what it leaves is the directory without
    the files whose name contains the id. *)
Lemma remove_files_of_run (id : string) (req : Request) (w : World) :
  remove_files_of id req w =
  (Ret tt, mkWorld (buffer w) (without_files_of id (temp w)) (out w)).
Proof.
  unfold remove_files_of. unfold mbind at 1. unfold Handler_bind, os_listdir.
  rewrite for_each_remove.
  - f_equal. f_equal. apply map_eq. intros n.
    rewrite foldl_delete_lookup. unfold without_files_of.
    destruct (temp w !! n) as [data |] eqn:Hn.
    + case_bool_decide as Hc.
      * symmetry. apply map_lookup_filter_None. right. intros data' _. simpl. tauto.
      * symmetry. apply map_lookup_filter_Some. split; [done |]. simpl.
        destruct (decide (find n id = (-1)%Z)); [done |]. exfalso. apply Hc.
        split; [| done]. apply list_elem_of_fmap. exists (n, data).
        split; [done |]. by apply elem_of_map_to_list.
    + case_bool_decide; symmetry; apply map_lookup_filter_None; by left.
  - apply NoDup_fst_map_to_list.
  - intros n [[n' data] [-> Hin]]%list_elem_of_fmap. simpl.
    apply elem_of_map_to_list in Hin. by eexists.
Qed.

(** ** Submissions through the forms *)

Lemma domain_tag_app (uuid : string) (c : ascii) :
  domain_tag (uuid +:+ String c EmptyString) = Some (String c EmptyString).
Proof.
  induction uuid as [|a uuid IH]; [done |].
  simpl. simpl in IH. destruct (uuid +:+ String c EmptyString) eqn:Heq; [| exact IH].
  by destruct uuid.
Qed.

Lemma get_last (c : ascii) (s : string) :
  String.get (String.length s) (String c s) = 
  match domain_tag (String c s) with
  | Some (String a _) => Some a
  | _ => None
  end.
Proof.
  revert c. induction s as [|b s IH]; intros c; [done |].
  change (String.get (String.length (String b s)) (String c (String b s)))
    with (String.get (String.length s) (String b s)).
  rewrite IH. reflexivity.
Qed.

Lemma domain_tag_single (s t : string) :
  domain_tag s = Some t → ∃ a, t = String a EmptyString.
Proof.
  induction s as [|c s IH]; [done |]. simpl.
  destruct s; [intros [= <-]; by eexists | exact IH].
Qed.

(** [id[len(id)-1]] is the domain tag; on the empty string it raises. *)
Lemma str_getitem_last (s : string) :
  str_getitem s (Z.of_nat (String.length s) - 1) =
  match domain_tag s with
  | Some t => Ret t
  | None => Raise (IndexError "string index out of range")
  end.
Proof.
  destruct s as [|c s]; [done |].
  unfold str_getitem.
  replace (Z.of_nat (String.length (String c s)) - 1)%Z with (Z.of_nat (String.length s))
    by (simpl; lia).
  assert ((Z.of_nat (String.length s) <? 0)%Z = false) as Hneg by (apply Z.ltb_ge; lia).
  assert ((Z.of_nat (String.length (String c s)) <=? Z.of_nat (String.length s))%Z = false)
    as Hlt by (apply Z.leb_gt; simpl; lia).
  cbv zeta. rewrite Hneg. cbv iota. rewrite Hneg, Hlt. simpl orb. cbv iota.
  rewrite Nat2Z.id, get_last.
  destruct (domain_tag (String c s)) as [t |] eqn:Htag.
  - apply domain_tag_single in Htag as [a ->]. reflexivity.
  - exfalso. clear -Htag. revert c Htag.
    induction s as [|b s IH]; intros c; [done | apply (IH b)].
Qed.

Section Posts.
Context `{Externals}.

Lemma task_response_world (template id : string) (req : Request) (w : World) :
  (task_response_with template id req w).2 = w.
Proof.
  destruct (OrderedDict.get id (buffer w)) as [ct |] eqn:Hget.
  - destruct (task_response_found template id req w ct Hget) as (resp & -> & _). done.
  - by rewrite task_response_missing.
Qed.

(** Serving a form either stops at the missing [calcName] argument, before
    any record exists, or adds the record of the job. *)
Lemma serve_post_buffer (w : World) (p : Post) :
  buffer (serve_post w p) =
  match arguments (post_request p) !! "calcName" with
  | Some calcName => buffer (submit w (submission_of p calcName))
  | None => buffer w
  end.
Proof.
  unfold serve_post, serve, post_handler, submission_of, post_tag.
  destruct p as [form req uuid planFile finaldata]. simpl.
  assert (∀ (tag template location redirect : string) (w0 : World),
    buffer w0 = buffer w →
    buffer
      (match
         (calcName ← get_argument "calcName";
          _add_task (uuid +:+ tag) calcName (Executor.submit wrapper finaldata);;
          response ← task_response_with template (uuid +:+ tag);
          let response : Response :=
            <["location" := VStr (location +:+ (uuid +:+ tag))]>
              (<["info" := VDict []]> response) in
          emit (WriteDict response);;
          emit (Redirect redirect)) req w0
       with
       | (Ret _, w') => (Completed, w')
       | (Raise e, w') =>
           (Failed (default 500%Z (exc_http e)),
            (write_error (default 500%Z (exc_http e)) e req
               (mkWorld (buffer w') (temp w') [])).2)
       end).2 =
    match arguments req !! "calcName" with
    | Some calcName =>
        buffer (submit w
          (mkSubmission req (uuid +:+ tag) calcName (Executor.submit wrapper finaldata)))
    | None => buffer w
    end) as Hrest.
  { intros tag template location redirect w0 Hw0.
    unfold mbind at 1. unfold Handler_bind at 1. unfold get_argument.
    destruct (arguments req !! "calcName") as [calcName |]; [| done].
    unfold mbind at 1. unfold Handler_bind at 1. rewrite _add_task_run.
    rewrite submit_buffer. simpl sub_id. simpl sub_name. simpl sub_task. simpl sub_request.
    rewrite Hw0.
    set (buf1 := if bool_decide _ then _ else _).
    unfold mbind at 1. unfold Handler_bind at 1.
    pose proof (task_response_world template (uuid +:+ tag) req
                  (mkWorld buf1 (temp w0) (out w0))) as Hworld.
    destruct (task_response_with template (uuid +:+ tag) req _) as [[resp | e] w1];
      simpl in Hworld; subst w1; done. }
  destruct form, planFile as [[extn_plan body] |];
    unfold CalculationNewHandler.post, CalculationNewHSTHandler.post,
      _get_task_response, _get_task_response_hst;
    unfold mbind at 1; unfold Handler_bind at 1; unfold open_write, pass;
    by apply Hrest.
Qed.

Lemma keys_submit (w : World) (s : Submission) (k : string) :
  k ∈ OrderedDict.keys (buffer (submit w s)) →
  k = sub_id s ∨ k ∈ OrderedDict.keys (buffer w).
Proof.
  rewrite submit_buffer. cbv zeta.
  set (ct := new_record _ _ _ _ _).
  assert (k ∈ OrderedDict.keys (OrderedDict.setitem (sub_id s) ct (buffer w)) →
          k = sub_id s ∨ k ∈ OrderedDict.keys (buffer w)) as Hset.
  { destruct (decide (sub_id s ∈ OrderedDict.keys (buffer w))) as [Hin | Hin].
    - rewrite od_setitem_keys_present by done. by right.
    - rewrite od_setitem_fresh by done. unfold OrderedDict.keys. rewrite fmap_app.
      intros [? | ->%list_elem_of_singleton]%elem_of_app; [by right | by left]. }
  case_bool_decide; [| exact Hset].
  intros Hk. apply Hset. unfold OrderedDict.keys in *.
  destruct (OrderedDict.setitem _ _ _); [done | by right].
Qed.

Lemma serve_post_well_keyed (w : World) (p : Post) :
  well_keyed (buffer w) → well_keyed (buffer (serve_post w p)).
Proof.
  intros [Hnd Htag]. rewrite serve_post_buffer.
  destruct (arguments (post_request p) !! "calcName") as [calcName |]; [| done].
  split; [by apply submit_NoDup |].
  intros k [-> | Hk]%keys_submit; [| by apply Htag].
  unfold submission_of, post_tag. simpl.
  destruct (post_form p); rewrite domain_tag_app; by eexists.
Qed.

Lemma serve_posts_well_keyed (ps : list Post) (w : World) :
  well_keyed (buffer w) → well_keyed (buffer (serve_posts ps w)).
Proof.
  revert w. induction ps as [|p ps IH]; intros w Hw; [done |].
  simpl. apply IH. by apply serve_post_well_keyed.
Qed.

End Posts.

(** ** The dashboards *)

Lemma task_responses_run `{Externals} (template tag : string) (req : Request) (w : World)
    (items : list (string * CalculationTask.t)) :
  (∀ kv, kv ∈ items →
     OrderedDict.get kv.1 (buffer w) = Some kv.2 ∧ is_Some (domain_tag kv.1)) →
  ∃ resps : list Response,
    task_responses tag (task_response_with template) items req w = (Ret resps, w) ∧
    Forall2
      (fun resp kv =>
         task_response_with template kv.1 req w = (Ret resp, w) ∧ snapshot_of resp kv)
      resps (list_by_owner (cookies req !! "pandexo_user") tag items).
Proof.
  induction items as [|[k nt] items IH]; intros Hitems.
  - exists []. split; [done | constructor].
  - destruct IH as (resps & Hrun & Hall).
    { intros kv Hkv. apply Hitems. by right. }
    destruct (Hitems (k, nt) ltac:(left)) as [Hget [t Htag]]. simpl in Hget, Htag.
    destruct (task_response_found template k req w nt Hget)
      as (resp & Hresp & Hid & Hname & Hcount & _).
    assert (task_responses tag (task_response_with template) ((k, nt) :: items) req w =
            if bool_decide (CalculationTask.cookie nt = cookies req !! "pandexo_user")
               && bool_decide (t = tag)
            then (Ret (resp :: resps), w) else (Ret resps, w)) as Hstep.
    { cbn [task_responses].
      unfold mbind at 1. unfold Handler_bind at 1. unfold get_cookie at 1.
      unfold mbind at 1. unfold Handler_bind at 1. unfold lift at 1.
      rewrite str_getitem_last, Htag.
      destruct (bool_decide _ && bool_decide _); [| done].
      unfold mbind at 1. unfold Handler_bind at 1. rewrite Hresp.
      unfold mbind at 1. unfold Handler_bind at 1. by rewrite Hrun. }
    destruct (decide (CalculationTask.cookie (k, nt).2 = cookies req !! "pandexo_user"
                      ∧ domain_tag (k, nt).1 = Some tag)) as [[Hc Ht] | Hno].
    + exists (resp :: resps).
      unfold list_by_owner. rewrite filter_cons_True by done.
      simpl in Hc, Ht. rewrite Htag in Ht. injection Ht as ->.
      rewrite !bool_decide_true in Hstep by done.
      split; [done |]. constructor; [| done]. by repeat split.
    + exists resps.
      unfold list_by_owner. rewrite filter_cons_False by done.
      split; [| done]. rewrite Hstep.
      assert (bool_decide (CalculationTask.cookie nt = cookies req !! "pandexo_user")
              && bool_decide (t = tag) = false) as ->; [| done].
      apply andb_false_iff.
      destruct (decide (CalculationTask.cookie nt = cookies req !! "pandexo_user"));
        [right | left]; apply bool_decide_eq_false; [| done].
      intros ->. apply Hno. by split.
Qed.

(** C5. In any state reached by serving submitted forms, for any caller,
    each dashboard renders its template with the reversed list of one
    response per record of [list_by_owner] for the caller's cookie and the
    dashboard's tag ("e" for the JWST dashboard, "h" for the HST one), in
    insertion order before the reversal; each response is what the status
    method returns for that record and carries its id, name and count. So
    every response shown belongs to a record in the buffer whose cookie is
    the caller's and whose id ends in the tag. *)
Theorem C5_dashboard_lists_own_jobs `{Externals} (posts : list Post) (req : Request) :
  let w := serve_posts posts initial in
  let owner := cookies req !! "pandexo_user" in
  (∃ resps : list Response,
     DashboardHandler.get req w =
       (Ret tt, mkWorld (buffer w) (temp w) (out w ++ [Render "dashboard.html" (rev resps) []])) ∧
     Forall2
       (fun resp kv => _get_task_response kv.1 req w = (Ret resp, w) ∧ snapshot_of resp kv)
       resps (list_by_owner owner "e" (buffer w))) ∧
  (∃ resps : list Response,
     DashboardHSTHandler.get req w =
       (Ret tt, mkWorld (buffer w) (temp w) (out w ++ [Render "dashboardhst.html" (rev resps) []])) ∧
     Forall2
       (fun resp kv => _get_task_response_hst kv.1 req w = (Ret resp, w) ∧ snapshot_of resp kv)
       resps (list_by_owner owner "h" (buffer w))) ∧
  (∀ tag kv, kv ∈ list_by_owner owner tag (buffer w) →
     kv ∈ buffer w ∧ CalculationTask.cookie kv.2 = owner ∧ domain_tag kv.1 = Some tag).
Proof.
  intros w owner.
  destruct (serve_posts_well_keyed posts initial) as [Hnd Htags].
  { split; [apply NoDup_nil_2 | intros k Hk; by apply elem_of_nil in Hk]. }
  fold w in Hnd, Htags.
  assert (∀ kv, kv ∈ buffer w →
            OrderedDict.get kv.1 (buffer w) = Some kv.2 ∧ is_Some (domain_tag kv.1))
    as Hitems.
  { intros [k nt] Hkv. split.
    - by apply od_elem_get.
    - apply Htags. apply (list_elem_of_fmap_2 fst) in Hkv. exact Hkv. }
  split; [| split].
  - destruct (task_responses_run "calc_row.html" "e" req w (buffer w) Hitems)
      as (resps & Hrun & Hall).
    exists resps. split; [| exact Hall].
    unfold DashboardHandler.get, OrderedDict.items.
    change (@_get_task_response _) with (task_response_with "calc_row.html").
    unfold mbind, Handler_bind, get_buffer. by rewrite Hrun.
  - destruct (task_responses_run "calc_rowhst.html" "h" req w (buffer w) Hitems)
      as (resps & Hrun & Hall).
    exists resps. split; [| exact Hall].
    unfold DashboardHSTHandler.get, OrderedDict.items.
    change (@_get_task_response_hst _) with (task_response_with "calc_rowhst.html").
    unfold mbind, Handler_bind, get_buffer. by rewrite Hrun.
  - intros tag kv Hkv. unfold list_by_owner in Hkv.
    apply list_elem_of_filter in Hkv as [[? ?] ?]. done.
Qed.

(** ** Downloads, views and the temporary directory *)

Lemma without_files_of_contains (id : string) (files : gmap string (list Byte.byte))
    (n : string) :
  contains n id → without_files_of id files !! n = None.
Proof.
  intros Hc. apply map_lookup_filter_None. right. intros data _. simpl.
  by apply find_contains.
Qed.

Lemma without_files_of_other (id : string) (files : gmap string (list Byte.byte))
    (n : string) :
  ¬ contains n id → without_files_of id files !! n = files !! n.
Proof.
  intros Hc. unfold without_files_of.
  destruct (files !! n) as [data |] eqn:Hn.
  - apply map_lookup_filter_Some. split; [done |]. simpl.
    destruct (decide (find n id = (-1)%Z)) as [| Hf]; [done |].
    by apply find_contains in Hf.
  - apply map_lookup_filter_None. by left.
Qed.

(** The chunk loop returns, touches neither the buffer nor the files, and
    has written the whole content when it stops. *)
Lemma write_chunks_run (rounds buf_size : nat) (rest : list Byte.byte) (req : Request)
    (w : World) :
  0 < buf_size → length rest < rounds →
  ∃ es, write_chunks rounds buf_size rest req w =
          (Ret tt, mkWorld (buffer w) (temp w) (out w ++ es)) ∧
        written es = rest.
Proof.
  intros Hsize. revert rest w.
  induction rounds as [|rounds IH]; intros rest w Hlen; [lia |].
  simpl. destruct (take buf_size rest) as [|b data] eqn:Htake.
  - exists []. rewrite app_nil_r. split; [by destruct w |].
    destruct rest; [done |]. destruct buf_size; [lia | done].
  - unfold mbind, Handler_bind, emit.
    destruct (IH (drop buf_size rest)
                (mkWorld (buffer w) (temp w) (out w ++ [WriteBytes (b :: data)])))
      as (es & Hrun & Hes).
    { rewrite length_drop. destruct rest; [by rewrite take_nil in Htake |]. simpl in *. lia. }
    exists (WriteBytes (b :: data) :: es). split.
    + rewrite Hrun. simpl. by rewrite <- app_assoc.
    + unfold written in *. rewrite fmap_cons. simpl. rewrite Hes.
      rewrite app_comm_cons, <- Htake. apply take_drop.
Qed.

Section Artifacts.
Context `{Externals}.

(** When a download has completed on an open connection, no file whose
    name contains the id is left. *)
Lemma download_sweeps (id : string) (req : Request) (w w' : World) :
  stream_closed req = false →
  CalculationDownloadHandler.get id req w = (Ret tt, w') →
  ∀ n, contains n id → temp w' !! n = None.
Proof.
  intros Hopen. unfold CalculationDownloadHandler.get.
  unfold mbind at 1. unfold Handler_bind at 1.
  destruct (_get_task_result id req w) as [[result | e] w1]; [| done].
  unfold mbind at 1. unfold Handler_bind at 1. unfold connection_stream_closed at 1.
  rewrite Hopen.
  unfold mbind, Handler_bind, open_write, emit, open_read, write_file_in_chunks.
  cbn [temp buffer out]. rewrite lookup_insert_eq.
  edestruct (write_chunks_run (S (length (pickle_dumps result))) 4096
               (pickle_dumps result) req) as (es & -> & _); [lia | lia |].
  rewrite remove_files_of_run. cbn [temp buffer out].
  intros [= <-] n Hn. cbn [temp]. by apply without_files_of_contains.
Qed.

Lemma download_pandin_sweeps (id : string) (req : Request) (w w' : World) :
  stream_closed req = false →
  CalculationDownloadPandInHandler.get id req w = (Ret tt, w') →
  ∀ n, contains n id → temp w' !! n = None.
Proof.
  intros Hopen. unfold CalculationDownloadPandInHandler.get.
  unfold mbind at 1. unfold Handler_bind at 1.
  destruct (_get_task_result id req w) as [[result | e] w1]; [| done].
  unfold mbind at 1. unfold Handler_bind at 1. unfold connection_stream_closed at 1.
  rewrite Hopen.
  unfold mbind, Handler_bind, lift.
  destruct (getitem result "w") as [wave | e]; [| done].
  destruct (getitem result "alpha") as [alpha | e]; [| done].
  destruct (np_savetxt wave alpha) as [table | e]; [| done].
  unfold open_write, emit, open_read, write_file_in_chunks.
  cbn [temp buffer out]. rewrite lookup_insert_eq.
  edestruct (write_chunks_run (S (length table)) 4096 table req) as (es & -> & _);
    [lia | lia |].
  rewrite remove_files_of_run. cbn [temp buffer out].
  intros [= <-] n Hn. cbn [temp]. by apply without_files_of_contains.
Qed.

(** When the JWST view has been rendered, no file whose name contains the
    id is left. *)
Lemma view_sweeps (id : string) (req : Request) (w w' : World) :
  CalculationViewHandler.get id req w = (Ret tt, w') →
  ∀ n, contains n id → temp w' !! n = None.
Proof.
  unfold CalculationViewHandler.get.
  unfold mbind at 1. unfold Handler_bind at 1.
  destruct (_get_task_result id req w) as [[result | e] w1]; [| done].
  unfold mbind, Handler_bind, lift.
  destruct (create_component_jwst result) as [[script div] | e]; [| done].
  destruct (getitem result "timing_div") as [timing_div | e]; [| done].
  destruct (setitem div "timing_div" timing_div) as [div1 | e]; [| done].
  destruct (getitem result "input_div") as [input_div | e]; [| done].
  destruct (setitem div1 "input_div" input_div) as [div2 | e]; [| done].
  destruct (getitem result "warnings_div") as [warnings_div | e]; [| done].
  destruct (setitem div2 "warnings_div" warnings_div) as [div3 | e]; [| done].
  rewrite remove_files_of_run. unfold emit. cbn [temp buffer out].
  intros [= <-] n Hn. cbn [temp]. by apply without_files_of_contains.
Qed.


End Artifacts.

(** * Further properties of the handlers *)

(** ** The buffer as a window over the submissions *)

Lemma submit_keys_fresh (w : World) (s : Submission) :
  sub_id s ∉ OrderedDict.keys (buffer w) →
  OrderedDict.keys (buffer (submit w s)) =
  if bool_decide (100 ≤ length (buffer w))
  then tail (OrderedDict.keys (buffer w)) ++ [sub_id s]
  else OrderedDict.keys (buffer w) ++ [sub_id s].
Proof.
  intros Hfresh. rewrite submit_buffer. cbv zeta.
  rewrite od_setitem_fresh by done.
  unfold OrderedDict.len, OrderedDict.keys. rewrite length_app. simpl.
  destruct (decide (100 ≤ length (buffer w))) as [Hfull | Hroom].
  - rewrite bool_decide_true by lia. rewrite (bool_decide_true (100 ≤ _)) by done.
    destruct (buffer w) as [|kv buf]; [simpl in Hfull; lia |].
    simpl. by rewrite fmap_app.
  - rewrite bool_decide_false by lia. rewrite (bool_decide_false (100 ≤ _)) by done.
    by rewrite fmap_app.
Qed.

Lemma tail_drop {A : Type} (l : list A) (n : nat) : tail (drop n l) = drop (S n) l.
Proof.
  revert n. induction l as [|x l IH]; intros n; [by destruct n |].
  destruct n as [|n]; [by rewrite drop_0 | apply IH].
Qed.

Lemma submit_all_keys_window (subs : list Submission) :
  NoDup (sub_id <$> subs) →
  OrderedDict.keys (buffer (submit_all subs initial)) =
  drop (length subs - 100) (sub_id <$> subs).
Proof.
  induction subs as [|s subs IH] using rev_ind; [done |].
  rewrite fmap_app, length_app. simpl. intros Hnd.
  apply NoDup_app in Hnd as (Hnd & Hfresh & _).
  specialize (IH Hnd).
  assert (length (buffer (submit_all subs initial)) = length subs `min` 100) as Hlen.
  { rewrite <- (length_fmap fst (buffer _)).
    fold (OrderedDict.keys (buffer (submit_all subs initial))).
    rewrite IH, length_drop, length_fmap. lia. }
  rewrite submit_all_snoc, submit_keys_fresh.
  - rewrite IH, Hlen. case_bool_decide as Hfull.
    + rewrite tail_drop.
      replace (length subs + 1 - 100) with (S (length subs - 100)) by lia.
      rewrite drop_app_le by (rewrite length_fmap; lia). done.
    + replace (length subs + 1 - 100) with 0 by lia.
      replace (length subs - 100) with 0 by lia. by rewrite !drop_0.
  - rewrite IH. intros Hin. apply subseteq_drop in Hin. apply (Hfresh _ Hin). left.
Qed.

(** X1. After any sequence of submissions with distinct ids the keys of
    the buffer are the ids of the last 100 submissions (all of them when
    there were fewer), in the order of submission. *)
Theorem buffer_keys_are_last_hundred (subs : list Submission) :
  NoDup (sub_id <$> subs) →
  OrderedDict.keys (buffer (submit_all subs initial)) =
  drop (length subs - 100) (sub_id <$> subs).
Proof. apply submit_all_keys_window. Qed.

Lemma submit_all_app (subs more : list Submission) (w : World) :
  submit_all (subs ++ more) w = submit_all more (submit_all subs w).
Proof. unfold submit_all. by rewrite foldl_app. Qed.

(** X2. A job stays in the buffer exactly until 100 jobs with other ids
    have been submitted after it: with fewer than 100 later submissions its
    id still leads to the record stored at its submission, with 100 or more
    the id is not a key any more. *)
Theorem job_kept_until_hundred_newer (before after : list Submission) (s : Submission) :
  NoDup (sub_id <$> before ++ s :: after) →
  let w := submit_all (before ++ s :: after) initial in
  (length after < 100 →
   OrderedDict.get (sub_id s) (buffer w) =
   Some (new_record (sub_request s) (buffer (submit_all before initial))
           (sub_id s) (sub_name s) (sub_task s))) ∧
  (100 ≤ length after → OrderedDict.get (sub_id s) (buffer w) = None).
Proof.
  intros Hnd w.
  pose proof (submit_all_keys_window _ Hnd) as Hkeys. fold w in Hkeys.
  rewrite fmap_app, fmap_cons in Hnd, Hkeys. rewrite length_app in Hkeys. simpl in Hkeys.
  apply NoDup_app in Hnd as (Hbefore & Hsep & Hrest).
  apply NoDup_cons in Hrest as [Hs Hafter].
  split.
  - intros Hlt.
    assert (sub_id s ∈ OrderedDict.keys (buffer w)) as Hin.
    { rewrite Hkeys.
      destruct (decide (length before + S (length after) - 100 ≤ length before)) as [Hle | Hgt];
        [| lia].
      rewrite drop_app_le by by rewrite length_fmap.
      apply elem_of_app. right. left. }
    destruct (OrderedDict.get (sub_id s) (buffer w)) as [ct |] eqn:Hget;
      [| by apply od_get_None in Hget].
    subst w. rewrite submit_all_app in Hget. simpl in Hget.
    apply submit_all_other_preserved in Hget; [| | done].
    + rewrite submit_new_present in Hget; [done |].
      apply submit_all_size_le. simpl. lia.
    + apply submit_NoDup, submit_all_NoDup, NoDup_nil_2.
  - intros Hge. apply od_get_None. rewrite Hkeys.
    rewrite drop_app_ge by (rewrite length_fmap; lia).
    rewrite length_fmap.
    replace (length before + S (length after) - 100 - length before)
      with (S (length after - 100)) by lia.
    simpl. intros Hin. apply subseteq_drop in Hin. done.
Qed.

(** ** Records and their ordinals *)

Lemma elem_of_setitem {V : Type} (d : OrderedDict.t V) (k : string) (v : V)
    (kv : string * V) :
  kv ∈ OrderedDict.setitem k v d → kv = (k, v) ∨ kv ∈ d.
Proof.
  induction d as [|[k' v'] d IH]; simpl.
  - intros ->%list_elem_of_singleton. by left.
  - case_decide as Hk; subst.
    + intros [-> | Hin]%elem_of_cons; [by left | right; by right].
    + intros [-> | Hin]%elem_of_cons; [right; left |].
      destruct (IH Hin) as [-> | Hd]; [by left | right; by right].
Qed.

Lemma elem_of_submit (w : World) (s : Submission) (kv : string * CalculationTask.t) :
  kv ∈ buffer (submit w s) →
  kv = (sub_id s,
        new_record (sub_request s) (buffer w) (sub_id s) (sub_name s) (sub_task s))
  ∨ kv ∈ buffer w.
Proof.
  rewrite submit_buffer. cbv zeta. intros Hin.
  apply (elem_of_setitem (buffer w)).
  case_bool_decide; [| done].
  destruct (OrderedDict.setitem _ _ _); [done | by right].
Qed.

(** X3. In any state reached by submissions, every record in the buffer
    is stored under its own [id] field, and its [count] lies between 1
    and 101: the ordinal is not unique, and once the buffer is full every
    new record gets 101. *)
Theorem records_keyed_by_id_and_count_bounded (subs : list Submission) (s : Submission) :
  let w := submit_all subs initial in
  (∀ k ct, (k, ct) ∈ buffer w →
     CalculationTask.id ct = k ∧ (1 ≤ CalculationTask.count ct ≤ 101)%Z) ∧
  (length (buffer w) = 100 →
   ∃ ct, OrderedDict.get (sub_id s) (buffer (submit w s)) = Some ct ∧
         CalculationTask.count ct = 101%Z).
Proof.
  intros w. split.
  - subst w. induction subs as [|s' subs IH] using rev_ind.
    + intros k ct Hin. by apply elem_of_nil in Hin.
    + intros k ct. rewrite submit_all_snoc.
      intros [[= -> ->] | Hin]%elem_of_submit; [| by apply IH].
      split; [done |]. unfold new_record. simpl.
      pose proof (submit_all_size_le subs initial) as Hlen. simpl in Hlen. lia.
  - intros Hfull. eexists. split.
    + apply submit_new_present. lia.
    + unfold new_record. simpl. lia.
Qed.

(** X4. Submitting under an id that is already a key (the buffer holding at
    most 100 records) replaces the record in place: the keys and their order
    are as before, nothing is evicted, the id now leads to the new record,
    whose [count] is the size of the buffer plus one, and every other id
    leads to what it led to before. *)
Theorem add_task_existing_id_replaces (req : Request) (w : World) (id name : string)
    (task : Future.t) :
  id ∈ OrderedDict.keys (buffer w) → length (buffer w) ≤ 100 →
  let w' := (_add_task id name task req w).2 in
  OrderedDict.keys (buffer w') = OrderedDict.keys (buffer w) ∧
  OrderedDict.get id (buffer w') = Some (new_record req (buffer w) id name task) ∧
  (∀ id', id' ≠ id → OrderedDict.get id' (buffer w') = OrderedDict.get id' (buffer w)).
Proof.
  intros Hin Hlen w'. subst w'. rewrite _add_task_run. cbn [snd buffer]. cbv zeta.
  set (ct := new_record req (buffer w) id name task).
  assert (length (OrderedDict.setitem id ct (buffer w)) = length (buffer w)) as Hsame.
  { rewrite od_setitem_length. by rewrite decide_True. }
  rewrite bool_decide_false by (unfold OrderedDict.len; lia).
  split; [by apply od_setitem_keys_present |].
  split; [apply od_get_setitem_eq |].
  intros id' Hne. by apply od_get_setitem_ne.
Qed.

(** ** Retrieving results *)

Lemma called_as_due_step (f : Future.t) (ev : TaskEvent) :
  called_as_due f → called_as_due (task_step f ev).
Proof.
  unfold called_as_due. destruct ev; simpl;
    unfold Future.result, Future.set_running_or_notify_cancel, Future.worker_run;
    destruct f as [[] res exc fn args calls]; simpl; try done;
    intros ->; by destruct (fn args).
Qed.

Lemma called_as_due_run (evs : list TaskEvent) (f : Future.t) :
  called_as_due f → called_as_due (task_run evs f).
Proof.
  revert f. induction evs as [|ev evs IH]; intros f Hf; [done |].
  simpl. apply IH. by apply called_as_due_step.
Qed.

Lemma od_get_Some_key {V : Type} (d : OrderedDict.t V) (k : string) (v : V) :
  OrderedDict.get k d = Some v → k ∈ OrderedDict.keys d.
Proof.
  intros Hget. destruct (decide (k ∈ OrderedDict.keys d)) as [| Hnot]; [done |].
  apply od_get_None in Hnot. congruence.
Qed.

Lemma _get_task_result_files (id : string) (req : Request) (w : World) :
  temp (_get_task_result id req w).2 = temp w ∧
  out (_get_task_result id req w).2 = out w.
Proof.
  destruct (OrderedDict.get id (buffer w)) as [ct |] eqn:Hget.
  - by rewrite (_get_task_result_found id req w ct Hget).
  - by rewrite _get_task_result_missing.
Qed.

(** X5. For a job whose future was created by [submit] for [fn args],
    whatever has happened to it since, [_get_task_result] gives the outcome
    of [fn args], value or exception. It changes nothing but the future of
    that job: keys and order, the other records, the fields of the record,
    the files and the output are as before; afterwards the future is done
    and the compute function has been called exactly once. *)
Theorem get_task_result_gives_outcome (req : Request) (w : World) (id : string)
    (ct : CalculationTask.t) (fn : Val → Res Val) (args : Val) (evs : list TaskEvent) :
  OrderedDict.get id (buffer w) = Some ct →
  CalculationTask.task ct = task_run evs (Executor.submit fn args) →
  let r := _get_task_result id req w in
  r.1 = fn args ∧
  OrderedDict.keys (buffer r.2) = OrderedDict.keys (buffer w) ∧
  temp r.2 = temp w ∧ out r.2 = out w ∧
  (∀ id', id' ≠ id → OrderedDict.get id' (buffer r.2) = OrderedDict.get id' (buffer w)) ∧
  ∃ task', OrderedDict.get id (buffer r.2) = Some (with_task ct task') ∧
           Future.done task' = true ∧ Future.fn_calls task' = 1.
Proof.
  intros Hget Htask r. subst r.
  rewrite (_get_task_result_found id req w ct Hget). cbn [fst snd buffer temp out].
  pose proof (tracks_run fn args evs _ (tracks_submit fn args)) as Htr.
  rewrite <- Htask in Htr.
  destruct (tracks_result fn args _ Htr) as [Hres Htr'].
  split; [done |].
  split; [apply od_setitem_keys_present; by eapply od_get_Some_key |].
  split; [done |]. split; [done |].
  split; [intros id' Hne; by apply od_get_setitem_ne |].
  eexists. split; [apply od_get_setitem_eq |].
  split; [apply result_done |].
  assert (called_as_due (CalculationTask.task ct)) as Hdue.
  { rewrite Htask. by apply called_as_due_run. }
  apply (called_as_due_step _ ResultCalled) in Hdue. simpl in Hdue.
  destruct (result_done (CalculationTask.task ct)) as [_ Hdone].
  destruct Htr' as (_ & _ & Hst).
  unfold called_as_due in Hdue. unfold Future.done in Hdone.
  by destruct (Future._state (Future.result (CalculationTask.task ct)).2).
Qed.

(** ** Artifacts: what the download and view handlers do to the files *)

Section MoreArtifacts.
Context `{Externals}.

(** X6. For an id that is not a key of the buffer (never submitted, or
    evicted), each handler that retrieves a result raises the
    [AttributeError] of the attribute access on [None] before it does
    anything else: the request is answered with the error page for status
    500, no file is written or removed, and the buffer is as before. *)
Theorem result_handlers_unknown_id (req : Request) (w : World) (id : string)
    (handler : string → Handler unit) :
  id ∉ OrderedDict.keys (buffer w) →
  handler ∈ [CalculationViewHandler.get; CalculationViewHSTHandler.get;
             CalculationDownloadHandler.get; CalculationDownloadPandInHandler.get] →
  handler id req w =
    (Raise (AttributeError "'NoneType' object has no attribute 'task'"), w) ∧
  serve (handler id) req w =
    (Failed 500,
     mkWorld (buffer w) (temp w)
       [RenderError 500
          (format_exception (AttributeError "'NoneType' object has no attribute 'task'"))]).
Proof.
  intros Hnot%od_get_None Hhandler.
  assert (∀ w0, buffer w0 = buffer w →
            handler id req w0 =
            (Raise (AttributeError "'NoneType' object has no attribute 'task'"), w0))
    as Hraise.
  { intros w0 Hw0.
    repeat (apply elem_of_cons in Hhandler as [-> | Hhandler]);
      [| | | | by apply elem_of_nil in Hhandler];
      unfold CalculationViewHandler.get, CalculationViewHSTHandler.get,
        CalculationDownloadHandler.get, CalculationDownloadPandInHandler.get;
      unfold mbind at 1; unfold Handler_bind at 1;
      by rewrite _get_task_result_missing by by rewrite Hw0. }
  split; [by apply Hraise |].
  unfold serve. by rewrite Hraise.
Qed.

Lemma write_chunks_chunks (rounds buf_size : nat) (rest : list Byte.byte) (req : Request)
    (w : World) :
  0 < buf_size → length rest < rounds →
  ∃ chunks : list (list Byte.byte),
    write_chunks rounds buf_size rest req w =
      (Ret tt, mkWorld (buffer w) (temp w) (out w ++ (WriteBytes <$> chunks))) ∧
    mjoin chunks = rest ∧
    Forall (fun chunk => 0 < length chunk ≤ buf_size) chunks.
Proof.
  intros Hsize. revert rest w.
  induction rounds as [|rounds IH]; intros rest w Hlen; [lia |].
  simpl. destruct (take buf_size rest) as [|b data] eqn:Htake.
  - exists []. simpl. rewrite app_nil_r. split; [by destruct w |].
    split; [| constructor].
    destruct rest; [done |]. destruct buf_size; [lia | done].
  - unfold mbind, Handler_bind, emit.
    destruct (IH (drop buf_size rest)
                (mkWorld (buffer w) (temp w) (out w ++ [WriteBytes (b :: data)])))
      as (chunks & Hrun & Hjoin & Hall).
    { rewrite length_drop. destruct rest; [by rewrite take_nil in Htake |]. simpl in *. lia. }
    exists ((b :: data) :: chunks). split; [| split].
    + rewrite Hrun. simpl. by rewrite <- app_assoc.
    + simpl. rewrite Hjoin, app_comm_cons, <- Htake. apply take_drop.
    + constructor; [| done]. rewrite <- Htake. rewrite length_take. simpl. 
      split; [| lia]. destruct rest; [by rewrite take_nil in Htake |]. simpl. lia.
Qed.

Lemma without_files_of_insert (id file_name : string) (data : list Byte.byte)
    (files : gmap string (list Byte.byte)) :
  contains file_name id →
  without_files_of id (<[file_name := data]> files) = without_files_of id files.
Proof.
  intros Hc. apply map_eq. intros n.
  destruct (decide (find n id = (-1)%Z)) as [Hf | Hf].
  - assert (¬ contains n id) as Hn by (intros Hn%find_contains; done).
    rewrite !without_files_of_other by done.
    apply lookup_insert_ne. by intros ->.
  - apply find_contains in Hf. by rewrite !without_files_of_contains.
Qed.

(** X7. A download of a job whose result is the value [v], on an open
    connection, completes. It sends the two headers, then the pickled
    result, whole and in order, in chunks of at most 4096 bytes, none of
    them empty, then finishes. The file it wrote for the download is gone
    afterwards, with every other file whose name contains the id; files
    whose name does not contain the id are untouched. *)
Theorem download_streams_pickled_result (req : Request) (w : World) (id : string)
    (ct : CalculationTask.t) (v : Val) :
  OrderedDict.get id (buffer w) = Some ct →
  (Future.result (CalculationTask.task ct)).1 = Ret v →
  stream_closed req = false →
  ∃ chunks : list (list Byte.byte),
    CalculationDownloadHandler.get id req w =
      (Ret tt,
       mkWorld
         (OrderedDict.setitem id
            (with_task ct (Future.result (CalculationTask.task ct)).2) (buffer w))
         (without_files_of id (temp w))
         (out w ++
          [SetHeader "Content-Type" "application/octet-stream";
           SetHeader "Content-Disposition"
             ("attachment; filename=" +:+ "ETC-calculation" +:+ id +:+ ".p")] ++
          (WriteBytes <$> chunks) ++ [Finish])) ∧
    mjoin chunks = pickle_dumps v ∧
    Forall (fun chunk => 0 < length chunk ≤ 4096) chunks.
Proof.
  intros Hget Hv Hopen.
  unfold CalculationDownloadHandler.get.
  unfold mbind at 1. unfold Handler_bind at 1.
  rewrite (_get_task_result_found id req w ct Hget), Hv.
  unfold mbind at 1. unfold Handler_bind at 1. unfold connection_stream_closed at 1.
  rewrite Hopen.
  unfold mbind, Handler_bind, open_write, emit, open_read, write_file_in_chunks.
  cbn [temp buffer out]. rewrite lookup_insert_eq.
  edestruct (write_chunks_chunks (S (length (pickle_dumps v))) 4096 (pickle_dumps v) req)
    as (chunks & -> & Hjoin & Hall); [lia | lia |].
  rewrite remove_files_of_run. cbn [temp buffer out].
  exists chunks. split; [| done].
  rewrite without_files_of_insert by by exists "ETC-calculation", ".p".
  by rewrite <- !app_assoc.
Qed.

(** X8. The download of the input table, for a job whose result [v] has
    the entries "w" and "alpha" and on an open connection, sends the table
    that [np.savetxt] writes for the two, whole and in order, in chunks of
    at most 4096 bytes, and leaves no file whose name contains the id. When
    the result has no entry "w", the handler raises the [KeyError] and the
    files are as before. *)
Theorem download_pandin_streams_table (req : Request) (w : World) (id : string)
    (ct : CalculationTask.t) (v : Val) :
  OrderedDict.get id (buffer w) = Some ct →
  (Future.result (CalculationTask.task ct)).1 = Ret v →
  stream_closed req = false →
  (∀ wave alpha table,
     getitem v "w" = Ret wave → getitem v "alpha" = Ret alpha →
     np_savetxt wave alpha = Ret table →
     ∃ chunks : list (list Byte.byte),
       CalculationDownloadPandInHandler.get id req w =
         (Ret tt,
          mkWorld
            (OrderedDict.setitem id
               (with_task ct (Future.result (CalculationTask.task ct)).2) (buffer w))
            (without_files_of id (temp w))
            (out w ++
             [SetHeader "Content-Type" "application/octet-stream";
              SetHeader "Content-Disposition"
                ("attachment; filename=" +:+ "PandExo-Input-file" +:+ id +:+ ".txt")] ++
             (WriteBytes <$> chunks) ++ [Finish])) ∧
       mjoin chunks = table ∧
       Forall (fun chunk => 0 < length chunk ≤ 4096) chunks) ∧
  (∀ e, getitem v "w" = Raise e →
     (CalculationDownloadPandInHandler.get id req w).1 = Raise e ∧
     temp (CalculationDownloadPandInHandler.get id req w).2 = temp w).
Proof.
  intros Hget Hv Hopen.
  assert (∀ rest : Val → Handler unit,
            (result ← _get_task_result id;
             closed ← connection_stream_closed;
             if (closed : bool) then pass else rest result) req w =
            rest v req
              (mkWorld
                 (OrderedDict.setitem id
                    (with_task ct (Future.result (CalculationTask.task ct)).2) (buffer w))
                 (temp w) (out w))) as Hstart.
  { intros rest. unfold mbind, Handler_bind, connection_stream_closed.
    by rewrite (_get_task_result_found id req w ct Hget), Hv, Hopen. }
  unfold CalculationDownloadPandInHandler.get. rewrite Hstart. clear Hstart.
  split.
  - intros wave alpha table Hw Halpha Htable.
    unfold mbind, Handler_bind, lift. rewrite Hw, Halpha, Htable.
    unfold open_write, emit, open_read, write_file_in_chunks.
    cbn [temp buffer out]. rewrite lookup_insert_eq.
    edestruct (write_chunks_chunks (S (length table)) 4096 table req)
      as (chunks & -> & Hjoin & Hall); [lia | lia |].
    rewrite remove_files_of_run. cbn [temp buffer out].
    exists chunks. split; [| done].
    rewrite without_files_of_insert by by exists "PandExo-Input-file", ".txt".
    by rewrite <- !app_assoc.
  - intros e Hw. unfold mbind, Handler_bind, lift. by rewrite Hw.
Qed.


(** X10. When the client has closed the connection, both download
    handlers still retrieve the result, waiting for the calculation if need
    be, but then return at once: nothing is sent, no file is written and
    the files whose name contains the id are not removed. *)
Theorem download_on_closed_connection (req : Request) (w : World) (id : string)
    (handler : string → Handler unit) :
  stream_closed req = true →
  handler ∈ [CalculationDownloadHandler.get; CalculationDownloadPandInHandler.get] →
  handler id req w =
    (match (_get_task_result id req w).1 with
     | Ret _ => Ret tt
     | Raise e => Raise e
     end,
     (_get_task_result id req w).2) ∧
  temp (handler id req w).2 = temp w ∧
  out (handler id req w).2 = out w.
Proof.
  intros Hclosed Hhandler.
  assert (handler id req w =
          (match (_get_task_result id req w).1 with
           | Ret _ => Ret tt
           | Raise e => Raise e
           end,
           (_get_task_result id req w).2)) as Hrun.
  { repeat (apply elem_of_cons in Hhandler as [-> | Hhandler]);
      [| | by apply elem_of_nil in Hhandler];
      unfold CalculationDownloadHandler.get, CalculationDownloadPandInHandler.get;
      unfold mbind at 1; unfold Handler_bind at 1;
      destruct (_get_task_result id req w) as [[result | e] w1]; try done;
      unfold mbind at 1; unfold Handler_bind at 1; unfold connection_stream_closed at 1;
      by rewrite Hclosed. }
  split; [exact Hrun |]. rewrite Hrun. apply _get_task_result_files.
Qed.

End MoreArtifacts.

(** X11. The clean-up loop of the download and view handlers never
    raises and touches neither the buffer nor the output. It removes a file
    exactly when its name contains the id, be it a file of this job or
    not; every other file keeps its content. Run again, it finds nothing
    more to remove. *)
Theorem cleanup_removes_exactly_matching_files (id : string) (req : Request) (w : World) :
  let w' := (remove_files_of id req w).2 in
  (remove_files_of id req w).1 = Ret tt ∧
  buffer w' = buffer w ∧ out w' = out w ∧
  (∀ n, contains n id → temp w' !! n = None) ∧
  (∀ n, ¬ contains n id → temp w' !! n = temp w !! n) ∧
  remove_files_of id req w' = (Ret tt, w').
Proof.
  intros w'. subst w'. rewrite remove_files_of_run. cbn [fst snd buffer temp out].
  repeat split.
  - intros n Hn. by apply without_files_of_contains.
  - intros n Hn. by apply without_files_of_other.
  - rewrite remove_files_of_run. cbn [buffer temp out]. do 2 f_equal.
    apply map_eq. intros n.
    destruct (decide (find n id = (-1)%Z)) as [Hf | Hf].
    + apply without_files_of_other. by intros Hn%find_contains.
    + apply find_contains in Hf. by rewrite !without_files_of_contains.
Qed.

(** ** Polling reads only *)

Lemma task_responses_world `{Externals} (template tag : string)
    (items : list (string * CalculationTask.t)) (req : Request) (w : World) :
  (task_responses tag (task_response_with template) items req w).2 = w.
Proof.
  induction items as [|[k nt] items IH]; [done |].
  cbn [task_responses].
  unfold mbind at 1. unfold Handler_bind at 1. unfold get_cookie at 1.
  unfold mbind at 1. unfold Handler_bind at 1. unfold lift at 1.
  destruct (str_getitem k _) as [last | e]; [| done].
  destruct (bool_decide _ && bool_decide _); [| exact IH].
  unfold mbind at 1. unfold Handler_bind at 1.
  pose proof (task_response_world template k req w) as Hk.
  destruct (task_response_with template k req w) as [[resp | e] w1];
    simpl in Hk; subst w1; [| done].
  unfold mbind at 1. unfold Handler_bind at 1.
  destruct (task_responses tag (task_response_with template) items req w)
    as [[resps | e] w1]; simpl in IH; subst w1; done.
Qed.

(** X12. The status handlers and the dashboards only read: whatever the
    id, the caller and the state of the server, and whether they return or
    raise, the buffer and the files are afterwards what they were. *)
Theorem polling_changes_nothing `{Externals} (req : Request) (w : World) (id : string) :
  (buffer (CalculationStatusHandler.get id req w).2 = buffer w ∧
   temp (CalculationStatusHandler.get id req w).2 = temp w) ∧
  (buffer (CalculationStatusHSTHandler.get id req w).2 = buffer w ∧
   temp (CalculationStatusHSTHandler.get id req w).2 = temp w) ∧
  (buffer (DashboardHandler.get req w).2 = buffer w ∧
   temp (DashboardHandler.get req w).2 = temp w) ∧
  (buffer (DashboardHSTHandler.get req w).2 = buffer w ∧
   temp (DashboardHSTHandler.get req w).2 = temp w).
Proof.
  assert (∀ template,
            let run := (response ← task_response_with template id;
                        closed ← connection_stream_closed;
                        if (closed : bool) then pass else emit (WriteDict response)) req w in
            buffer run.2 = buffer w ∧ temp run.2 = temp w) as Hstatus.
  { intros template. cbv zeta. unfold mbind, Handler_bind, connection_stream_closed.
    pose proof (task_response_world template id req w) as Hw.
    destruct (task_response_with template id req w) as [[resp | e] w1];
      simpl in Hw; subst w1; [| done].
    by destruct (stream_closed req). }
  assert (∀ template tag page,
            let run := (buf ← get_buffer;
                        task_responses ←
                          task_responses tag (task_response_with template)
                            (OrderedDict.items buf);
                        emit (Render page (rev task_responses) [])) req w in
            buffer run.2 = buffer w ∧ temp run.2 = temp w) as Hdash.
  { intros template tag page. cbv zeta. unfold mbind, Handler_bind, get_buffer.
    pose proof (task_responses_world template tag (OrderedDict.items (buffer w)) req w) as Hw.
    destruct (task_responses tag _ _ req w) as [[resps | e] w1];
      simpl in Hw; subst w1; done. }
  split; [apply (Hstatus "calc_row.html") |].
  split; [apply (Hstatus "calc_rowhst.html") |].
  split; [apply (Hdash "calc_row.html" "e" "dashboard.html") |].
  apply (Hdash "calc_rowhst.html" "h" "dashboardhst.html").
Qed.

(** ** Submitting a form *)

Section MorePosts.
Context `{Externals}.




End MorePosts.

(** ** Rendering the results *)

Lemma assoc_set_eq (k : string) (v : Val) (kv : list (string * Val)) :
  assoc k (assoc_set k v kv) = Some v.
Proof.
  induction kv as [|[k' v'] kv IH]; simpl.
  - by rewrite decide_True.
  - case_decide as Hk; simpl; subst.
    + by rewrite decide_True.
    + by rewrite decide_False.
Qed.

Lemma assoc_set_ne (k k' : string) (v : Val) (kv : list (string * Val)) :
  k ≠ k' → assoc k' (assoc_set k v kv) = assoc k' kv.
Proof.
  intros Hne. induction kv as [|[k0 v0] kv IH]; simpl.
  - by rewrite decide_False.
  - case_decide as Hk; simpl; subst.
    + by rewrite !decide_False by congruence.
    + case_decide; [done | exact IH].
Qed.

Lemma getitem_setitem_eq (d d' : Val) (k : string) (v : Val) :
  setitem d k v = Ret d' → getitem d' k = Ret v.
Proof.
  destruct d; try done. intros [= <-]. simpl. by rewrite assoc_set_eq.
Qed.

Lemma getitem_setitem_ne (d d' : Val) (k k' : string) (v : Val) :
  setitem d k v = Ret d' → k ≠ k' → getitem d' k' = getitem d k'.
Proof.
  destruct d; try done. intros [= <-] Hne. simpl. by rewrite assoc_set_ne.
Qed.

(** X15. When the JWST view completes, it has rendered [view.html] with
    the script of the plot component and a dictionary of divs in which the
    entries "timing_div", "input_div" and "warnings_div" are those of the
    result and every other entry is that of the plot component; the files
    left are exactly those whose name does not contain the id. When the
    HST view completes, it has rendered [viewhst.html] likewise, with the
    entry "info_div" of the result, and the files are as before. *)
Theorem views_render_divs_of_result `{Externals} (req : Request) (w w' : World)
    (id : string) :
  (CalculationViewHandler.get id req w = (Ret tt, w') →
   ∃ result script div0 div,
     (_get_task_result id req w).1 = Ret result ∧
     create_component_jwst result = Ret (script, div0) ∧
     out w' = out w ++
       [Render "view.html" [] [("script", script); ("div", div); ("id", VStr id)]] ∧
     temp w' = without_files_of id (temp w) ∧
     (∀ k, k ∈ ["timing_div"; "input_div"; "warnings_div"] →
        getitem div k = getitem result k) ∧
     (∀ k, k ∉ ["timing_div"; "input_div"; "warnings_div"] →
        getitem div k = getitem div0 k)) ∧
  (CalculationViewHSTHandler.get id req w = (Ret tt, w') →
   ∃ result script div0 div,
     (_get_task_result id req w).1 = Ret result ∧
     create_component_hst result = Ret (script, div0) ∧
     out w' = out w ++
       [Render "viewhst.html" [] [("script", script); ("div", div); ("id", VStr id)]] ∧
     temp w' = temp w ∧
     getitem div "info_div" = getitem result "info_div" ∧
     (∀ k, k ≠ "info_div" → getitem div k = getitem div0 k)).
Proof.
  destruct (_get_task_result_files id req w) as [Htemp Hout].
  split.
  - unfold CalculationViewHandler.get, mbind, Handler_bind, lift.
    destruct (_get_task_result id req w) as [[result | e] w1]; [| done].
    simpl in Htemp, Hout.
    destruct (create_component_jwst result) as [[script div0] | e] eqn:Hcomp; [| done].
    destruct (getitem result "timing_div") as [timing_div | e] eqn:Ht; [| done].
    destruct (setitem div0 "timing_div" timing_div) as [div1 | e] eqn:H1; [| done].
    destruct (getitem result "input_div") as [input_div | e] eqn:Hi; [| done].
    destruct (setitem div1 "input_div" input_div) as [div2 | e] eqn:H2; [| done].
    destruct (getitem result "warnings_div") as [warnings_div | e] eqn:Hw; [| done].
    destruct (setitem div2 "warnings_div" warnings_div) as [div3 | e] eqn:H3; [| done].
    rewrite remove_files_of_run. unfold emit. cbn [buffer temp out].
    intros [= <-]. exists result, script, div0, div3.
    cbn [fst temp out]. rewrite Htemp, Hout.
    split; [done |]. split; [done |]. split; [done |]. split; [done |].
    split.
    + intros k Hk.
      repeat (apply elem_of_cons in Hk as [-> | Hk]); [| | | by apply elem_of_nil in Hk].
      * rewrite (getitem_setitem_ne _ _ _ _ _ H3) by done.
        rewrite (getitem_setitem_ne _ _ _ _ _ H2) by done.
        by rewrite (getitem_setitem_eq _ _ _ _ H1).
      * rewrite (getitem_setitem_ne _ _ _ _ _ H3) by done.
        by rewrite (getitem_setitem_eq _ _ _ _ H2).
      * by rewrite (getitem_setitem_eq _ _ _ _ H3).
    + intros k Hk.
      rewrite (getitem_setitem_ne _ _ _ _ _ H3) by (intros <-; set_solver).
      rewrite (getitem_setitem_ne _ _ _ _ _ H2) by (intros <-; set_solver).
      apply (getitem_setitem_ne _ _ _ _ _ H1). intros <-. set_solver.
  - unfold CalculationViewHSTHandler.get, mbind, Handler_bind, lift.
    destruct (_get_task_result id req w) as [[result | e] w1]; [| done].
    simpl in Htemp, Hout.
    destruct (create_component_hst result) as [[script div0] | e] eqn:Hcomp; [| done].
    destruct (getitem result "info_div") as [info_div | e] eqn:Hi; [| done].
    destruct (setitem div0 "info_div" info_div) as [div1 | e] eqn:H1; [| done].
    unfold emit. cbn [buffer temp out].
    intros [= <-]. exists result, script, div0, div1.
    cbn [fst temp out]. rewrite Htemp, Hout.
    split; [done |]. split; [done |]. split; [done |]. split; [done |].
    split; [by rewrite (getitem_setitem_eq _ _ _ _ H1) |].
    intros k Hk. by apply (getitem_setitem_ne _ _ _ _ _ H1).
Qed.

(** ** The two dashboards together *)

Lemma serve_posts_tags `{Externals} (ps : list Post) (w : World) :
  (∀ k, k ∈ OrderedDict.keys (buffer w) →
        domain_tag k = Some "e" ∨ domain_tag k = Some "h") →
  ∀ k, k ∈ OrderedDict.keys (buffer (serve_posts ps w)) →
       domain_tag k = Some "e" ∨ domain_tag k = Some "h".
Proof.
  revert w. induction ps as [|p ps IH]; intros w Hw; [done |].
  simpl. apply IH. intros k. rewrite serve_post_buffer.
  destruct (arguments (post_request p) !! "calcName") as [calcName |]; [| apply Hw].
  intros [-> | Hk]%keys_submit; [| by apply Hw].
  unfold submission_of, post_tag. simpl.
  destruct (post_form p); rewrite domain_tag_app; [by left | by right].
Qed.

Lemma list_by_owner_split (owner : option string)
    (records : list (string * CalculationTask.t)) :
  (∀ kv, kv ∈ records → domain_tag kv.1 = Some "e" ∨ domain_tag kv.1 = Some "h") →
  list_by_owner owner "e" records ++ list_by_owner owner "h" records ≡ₚ
  filter (fun kv => CalculationTask.cookie kv.2 = owner) records.
Proof.
  unfold list_by_owner.
  induction records as [|kv records IH]; intros Htags; [done |].
  specialize (IH (fun kv' Hin => Htags kv' (list_elem_of_further _ _ _ Hin))).
  rewrite !filter_cons.
  destruct (Htags kv ltac:(left)) as [Htag | Htag];
    destruct (decide (CalculationTask.cookie kv.2 = owner)) as [Hown | Hown].
  - rewrite decide_True by done.
    rewrite (decide_False (P := _ ∧ domain_tag kv.1 = Some "h")) by (rewrite Htag; intros [_ [=]]).
    simpl. by rewrite IH.
  - rewrite (decide_False (P := _ ∧ domain_tag kv.1 = Some "e")) by tauto.
    rewrite (decide_False (P := _ ∧ domain_tag kv.1 = Some "h")) by tauto.
    exact IH.
  - rewrite (decide_False (P := _ ∧ domain_tag kv.1 = Some "e")) by (rewrite Htag; intros [_ [=]]).
    rewrite (decide_True (P := _ ∧ domain_tag kv.1 = Some "h")) by done.
    rewrite <- Permutation_middle. by rewrite IH.
  - rewrite (decide_False (P := _ ∧ domain_tag kv.1 = Some "e")) by tauto.
    rewrite (decide_False (P := _ ∧ domain_tag kv.1 = Some "h")) by tauto.
    exact IH.
Qed.

Lemma ids_of_snapshots (P : Response → string * CalculationTask.t → Prop)
    (resps : list Response) (records : list (string * CalculationTask.t)) :
  Forall2 (fun resp kv => P resp kv ∧ snapshot_of resp kv) resps records →
  (fun resp : Response => resp !! "id") <$> resps =
  (fun kv : string * CalculationTask.t => Some (VStr kv.1)) <$> records.
Proof.
  induction 1 as [|resp kv resps records [_ (Hid & _)] _ IH]; [done |].
  rewrite !fmap_cons. by rewrite Hid, IH.
Qed.

(** X16. In any state reached by serving submitted forms, the two
    dashboards together show each job of the caller that is in the buffer
    exactly once: the ids of the rows of the JWST dashboard followed by
    those of the HST dashboard are, up to order, the ids of the records
    whose cookie is the caller's. *)
Theorem dashboards_show_each_own_job_once `{Externals} (posts : list Post) (req : Request) :
  let w := serve_posts posts initial in
  ∃ rows_jwst rows_hst : list Response,
    DashboardHandler.get req w =
      (Ret tt,
       mkWorld (buffer w) (temp w)
         (out w ++ [Render "dashboard.html" (rev rows_jwst) []])) ∧
    DashboardHSTHandler.get req w =
      (Ret tt,
       mkWorld (buffer w) (temp w)
         (out w ++ [Render "dashboardhst.html" (rev rows_hst) []])) ∧
    (fun resp : Response => resp !! "id") <$> (rows_jwst ++ rows_hst) ≡ₚ
    (fun kv : string * CalculationTask.t => Some (VStr kv.1)) <$>
      filter (fun kv => CalculationTask.cookie kv.2 = cookies req !! "pandexo_user")
        (buffer w).
Proof.
  intros w.
  destruct (serve_posts_well_keyed posts initial) as [Hnd Htags].
  { split; [apply NoDup_nil_2 | intros k Hk; by apply elem_of_nil in Hk]. }
  fold w in Hnd, Htags.
  assert (∀ kv, kv ∈ buffer w →
            OrderedDict.get kv.1 (buffer w) = Some kv.2 ∧ is_Some (domain_tag kv.1))
    as Hitems.
  { intros [k nt] Hkv. split; [by apply od_elem_get |].
    apply Htags. apply (list_elem_of_fmap_2 fst) in Hkv. exact Hkv. }
  destruct (task_responses_run "calc_row.html" "e" req w (buffer w) Hitems)
    as (rows_jwst & Hrun_e & Hall_e).
  destruct (task_responses_run "calc_rowhst.html" "h" req w (buffer w) Hitems)
    as (rows_hst & Hrun_h & Hall_h).
  exists rows_jwst, rows_hst. split; [| split].
  - unfold DashboardHandler.get, OrderedDict.items.
    change (@_get_task_response _) with (task_response_with "calc_row.html").
    unfold mbind, Handler_bind, get_buffer. by rewrite Hrun_e.
  - unfold DashboardHSTHandler.get, OrderedDict.items.
    change (@_get_task_response_hst _) with (task_response_with "calc_rowhst.html").
    unfold mbind, Handler_bind, get_buffer. by rewrite Hrun_h.
  - rewrite fmap_app.
    rewrite (ids_of_snapshots _ _ _ Hall_e), (ids_of_snapshots _ _ _ Hall_h).
    rewrite <- fmap_app. apply fmap_Permutation. apply list_by_owner_split.
    intros kv Hkv. apply (serve_posts_tags posts initial).
    + intros k Hk. by apply elem_of_nil in Hk.
    + apply (list_elem_of_fmap_2 fst) in Hkv. exact Hkv.
Qed.

(** ** The noise floor of a JWST submission *)

(** X17. The noise floor block of the JWST form never raises and never
    yields the uploaded file. When the noise model is "user" and a noise
    file is uploaded, the value stored is 0.0 and an empty file named by
    the job id, "noise" and the extension is left in the temporary
    directory: the body of the upload is never written. Otherwise no file
    is touched. *)
Theorem noise_upload_is_dropped (float : string → Res Val) (id : string)
    (noiseFile : option (string * list Byte.byte)) (req : Request) (w : World) :
  let run := post_noise_floor float id noiseFile req w in
  (∃ floor, run.1 = Ret floor ∧ ∀ path, floor ≠ NoiseFile path) ∧
  buffer run.2 = buffer w ∧ out run.2 = out w ∧
  (∀ extn_noise body,
     arguments req !! "noiseModel" = Some "user" → noiseFile = Some (extn_noise, body) →
     run.1 = Ret NoiseZero ∧
     temp run.2 = <[id +:+ "noise" +:+ extn_noise := []]> (temp w)) ∧
  (arguments req !! "noiseModel" ≠ Some "user" ∨ noiseFile = None → temp run.2 = temp w).
Proof.
  intros run. subst run.
  unfold post_noise_floor, try_except, mbind, Handler_bind, get_argument.
  destruct (arguments req !! "noiseModel") as [observation_type |] eqn:Hmodel.
  - case_bool_decide as Huser.
    + subst observation_type. destruct noiseFile as [[extn_noise body] |]; simpl.
      * split; [by exists NoiseZero |]. split; [done |]. split; [done |].
        split; [by intros ? ? _ [= <- <-] |].
        intros [Hne | [=]]. done.
      * split; [by exists NoiseZero |]. split; [done |]. split; [done |].
        split; [by intros ? ? _ [=] | done].
    + destruct (arguments req !! "noisefloor") as [noisefloor |]; simpl.
      * unfold lift. destruct (float noisefloor) as [v | e]; simpl.
        -- split; [by exists (NoiseNumber v) |]. split; [done |]. split; [done |].
           split; [| done]. intros ? ? [= ->]. done.
        -- split; [by exists NoiseZero |]. split; [done |]. split; [done |].
           split; [| done]. intros ? ? [= ->]. done.
      * split; [by exists NoiseZero |]. split; [done |]. split; [done |].
        split; [| done]. intros ? ? [= ->]. done.
  - simpl. split; [by exists NoiseZero |]. split; [done |]. split; [done |].
    split; [by intros ? ? [=] | done].
Qed.

(** * Worked instances *)

(** The instances below use these collaborators. *)
#[local] Existing Instance Sample.externals.

(** Closes a decidable goal by evaluating its decision procedure. *)
Ltac decide_by_evaluation := apply (bool_decide_unpack _); vm_compute; exact I.

(** C9, at a failing input. An HST job is submitted with a planet file,
    which the form handler stores in the temporary directory under a name
    that starts with the job id. The HST results view for that id is then
    rendered and completes; the file is still there, and its name contains
    the id. The download of the same job, in the same state, leaves no
    file behind. *)
Theorem C9_viewhst_leaves_files :
  let id := "7c9e6679h" in
  let w := serve_post initial Sample.hst_post in
  temp w !! "7c9e6679hplanet.dat" = Some Sample.planet_file ∧
  (CalculationViewHSTHandler.get id Sample.alice w).1 = Ret tt ∧
  temp (CalculationViewHSTHandler.get id Sample.alice w).2 !! "7c9e6679hplanet.dat" =
    Some Sample.planet_file ∧
  contains "7c9e6679hplanet.dat" id ∧
  (CalculationDownloadHandler.get id Sample.alice w).1 = Ret tt ∧
  temp (CalculationDownloadHandler.get id Sample.alice w).2 = ∅.
Proof.
  repeat split; try (vm_compute; reflexivity).
  by exists "", "planet.dat".
Qed.

(** C2, the claim as stated fails: on the empty buffer the status of an
    unknown id is answered with status 500, not with a client error. *)
Lemma C2_unknown_id_not_client_error :
  ("no-such-job" ∉ OrderedDict.keys (buffer initial)) ∧
  (serve (CalculationStatusHandler.get "no-such-job") Sample.alice initial).1 = Failed 500 ∧
  ¬ client_error (serve (CalculationStatusHandler.get "no-such-job") Sample.alice initial).1.
Proof.
  split; [apply not_elem_of_nil |].
  split; [vm_compute; reflexivity |].
  intros (status_code & Hstatus & Hrange).
  vm_compute in Hstatus. injection Hstatus as <-. lia.
Qed.

Lemma C2_unknown_id_server_error_witness :
  ("no-such-job" ∉ OrderedDict.keys (buffer initial)) ∧
  CalculationStatusHandler.get "no-such-job" Sample.alice initial =
    (Raise (AttributeError "'NoneType' object has no attribute 'task'"), initial).
Proof.
  assert ("no-such-job" ∉ OrderedDict.keys (buffer initial)) as Hnot
    by apply not_elem_of_nil.
  split; [exact Hnot |].
  destruct (C2_unknown_id_server_error Sample.alice initial "no-such-job"
              CalculationStatusHandler.get Hnot ltac:(left)) as (_ & _ & Hraise & _).
  exact Hraise.
Defined.

Lemma C1_capacity_and_eviction_witness :
  (length (buffer (submit_all (Sample.jobs 0 101) initial)) = 100 ∧
   OrderedDict.get "job-0e" (buffer (submit_all (Sample.jobs 0 101) initial)) = None) ∧
  (length (buffer (submit_all (Sample.jobs 0 100) initial)) = 100 ∧
   ∃ oldest rest,
     buffer (submit_all (Sample.jobs 0 100) initial) = oldest :: rest ∧
     buffer (submit (submit_all (Sample.jobs 0 100) initial) (Sample.job 100)) =
       rest ++ [("job-100e",
                 new_record Sample.alice (buffer (submit_all (Sample.jobs 0 100) initial))
                   "job-100e" "job-100" (Executor.submit wrapper (VDict [])))]).
Proof.
  destruct C1_capacity_and_eviction as (_ & Hevict & Hfull).
  split.
  - destruct (Hfull (Sample.job 0) (Sample.jobs 1 100)) as (Hlen & Hgone & _).
    + vm_compute. reflexivity.
    + decide_by_evaluation.
    + split; [exact Hlen | exact Hgone].
  - assert (length (buffer (submit_all (Sample.jobs 0 100) initial)) = 100) as Hlen
      by (vm_compute; reflexivity).
    split; [exact Hlen |].
    destruct (Hevict (submit_all (Sample.jobs 0 100) initial) (Sample.job 100) Hlen)
      as (oldest & rest & Hbuf & Hrun).
    + decide_by_evaluation.
    + exists oldest, rest. split; [exact Hbuf |].
      unfold submit. rewrite Hrun. reflexivity.
Defined.

Lemma C6_count_assigned_once_witness :
  (∃ ct, OrderedDict.get "job-3e"
           (buffer (submit (submit_all (Sample.jobs 0 3) initial) (Sample.job 3))) = Some ct ∧
         CalculationTask.count ct = 4%Z) ∧
  (∀ ct, OrderedDict.get "job-3e"
           (buffer (submit_all (Sample.jobs 4 100)
                      (submit (submit_all (Sample.jobs 0 3) initial) (Sample.job 3)))) =
         Some ct →
         CalculationTask.count ct = 4%Z).
Proof.
  destruct (C6_count_assigned_once (Sample.jobs 0 3) (Sample.job 3))
    as (Hnew & _ & Hlater).
  split; [exact Hnew |].
  intros ct. apply (Hlater (Sample.jobs 4 100) ct).
  decide_by_evaluation.
Defined.

Lemma C4_state_precedence_witness :
  ∃ resp : Response,
    _get_task_response "4fd1e" Sample.bob Sample.failed_world =
      (Ret resp, Sample.failed_world) ∧
    resp !! "state" = Some (VStr "finished") ∧
    (is_Some (resp !! "code") ↔ resp !! "state" = Some (VStr "running")).
Proof.
  destruct (C4_state_precedence Sample.bob Sample.failed_world "4fd1e"
              Sample.failed_record _get_task_response)
    as (resp & Hrun & Hstate & Hcode & _).
  - reflexivity.
  - left.
  - exists resp. split; [exact Hrun |]. split; [exact Hstate | exact Hcode].
Defined.

Lemma C3_poll_before_result_never_failed_witness :
  ∃ resp : Response,
    _get_task_response "4fd1e" Sample.bob Sample.failed_world =
      (Ret resp, Sample.failed_world) ∧
    resp !! "state" ≠ Some (VStr "failed") ∧
    resp !! "state" = Some (VStr "finished").
Proof.
  destruct (C3_poll_before_result_never_failed Sample.bob Sample.failed_world "4fd1e"
              Sample.failed_record wrapper (VInt 0) [PoolDispatch; WorkerCompletes]
              _get_task_response)
    as (resp & Hrun & Hnot & Hfinished).
  - reflexivity.
  - reflexivity.
  - decide_by_evaluation.
  - left.
  - exists resp. split; [exact Hrun |]. split; [exact Hnot |].
    apply (Hfinished (ValueError "bad target")); reflexivity.
Defined.

Lemma C10_failed_unreachable_witness :
  ∃ resp : Response,
    _get_task_response_hst "4fd1e" Sample.bob Sample.failed_world =
      (Ret resp, Sample.failed_world) ∧
    resp !! "state" = Some (VStr "finished").
Proof.
  destruct (C10_failed_unreachable Sample.bob Sample.failed_world "4fd1e"
              Sample.failed_record _get_task_response_hst)
    as (resp & Hrun & _ & _ & Hfinished & _).
  - reflexivity.
  - right. left.
  - exists resp. split; [exact Hrun |].
    apply (Hfinished (ValueError "bad target")); reflexivity.
Defined.

Lemma C7_compute_failure_propagates_witness :
  (_get_task_result "4fd1e" Sample.alice Sample.failed_world).1 =
    Raise (ValueError "bad target") ∧
  (CalculationViewHandler.get "4fd1e" Sample.alice Sample.failed_world).1 =
    Raise (ValueError "bad target") ∧
  (serve (CalculationViewHandler.get "4fd1e") Sample.alice Sample.failed_world).1 =
    Failed 500.
Proof.
  destruct (C7_compute_failure_propagates Sample.alice Sample.failed_world "4fd1e"
              Sample.failed_record wrapper (VInt 0) [PoolDispatch; WorkerCompletes]
              (ValueError "bad target") CalculationViewHandler.get)
    as (Hresult & Hhandler & Hserve & _).
  - reflexivity.
  - reflexivity.
  - reflexivity.
  - left.
  - split; [exact Hresult |]. split; [exact Hhandler | exact Hserve].
Defined.

Lemma C8_result_idempotent_witness :
  (_get_task_result "a81be" Sample.alice Sample.finished_world).1 =
  (_get_task_result "a81be" Sample.bob
     (_get_task_result "a81be" Sample.alice Sample.finished_world).2).1.
Proof.
  destruct (C8_result_idempotent Sample.alice Sample.bob Sample.finished_world "a81be"
              Sample.finished_record)
    as (Hsame & _).
  - reflexivity.
  - reflexivity.
  - exact Hsame.
Defined.

Lemma C5_dashboard_lists_own_jobs_witness :
  let w := serve_posts
             [Sample.jwst_post Sample.alice "0a1b"; Sample.hst_post;
              Sample.jwst_post Sample.bob "2c3d"; Sample.jwst_post Sample.alice "4e5f"]
             initial in
  (∃ resps : list Response,
     DashboardHandler.get Sample.alice w =
       (Ret tt,
        mkWorld (buffer w) (temp w) (out w ++ [Render "dashboard.html" (rev resps) []])) ∧
     length resps = 2) ∧
  (∀ kv, kv ∈ list_by_owner (Some "alice") "e" (buffer w) →
         CalculationTask.cookie kv.2 = Some "alice" ∧ domain_tag kv.1 = Some "e").
Proof.
  intros w.
  destruct (C5_dashboard_lists_own_jobs
              [Sample.jwst_post Sample.alice "0a1b"; Sample.hst_post;
               Sample.jwst_post Sample.bob "2c3d"; Sample.jwst_post Sample.alice "4e5f"]
              Sample.alice)
    as ((resps & Hrun & Hall) & _ & Hmatch).
  split.
  - exists resps. split; [exact Hrun |].
    apply Forall2_length in Hall. rewrite Hall. vm_compute. reflexivity.
  - intros kv Hkv. destruct (Hmatch "e" kv Hkv) as (_ & Hcookie & Htag).
    split; [exact Hcookie | exact Htag].
Defined.

(** ** Instances of the further properties *)

Lemma buffer_keys_are_last_hundred_witness :
  OrderedDict.keys (buffer (submit_all (Sample.jobs 0 103) initial)) =
  drop (length (Sample.jobs 0 103) - 100) (sub_id <$> Sample.jobs 0 103).
Proof.
  apply (buffer_keys_are_last_hundred (Sample.jobs 0 103)).
  decide_by_evaluation.
Defined.

Lemma job_kept_until_hundred_newer_witness :
  OrderedDict.get "job-2e"
    (buffer (submit_all (Sample.jobs 0 2 ++ Sample.job 2 :: Sample.jobs 3 100) initial)) = None ∧
  is_Some (OrderedDict.get "job-2e"
    (buffer (submit_all (Sample.jobs 0 2 ++ Sample.job 2 :: Sample.jobs 3 99) initial))).
Proof.
  split.
  - destruct (job_kept_until_hundred_newer (Sample.jobs 0 2) (Sample.jobs 3 100) (Sample.job 2))
      as [_ Hgone].
    + decide_by_evaluation.
    + apply Hgone. vm_compute. lia.
  - destruct (job_kept_until_hundred_newer (Sample.jobs 0 2) (Sample.jobs 3 99) (Sample.job 2))
      as [Hkept _].
    + decide_by_evaluation.
    + eexists. apply Hkept. vm_compute. lia.
Defined.

Lemma records_keyed_by_id_and_count_bounded_witness :
  ∃ ct, OrderedDict.get "job-100e"
          (buffer (submit (submit_all (Sample.jobs 0 100) initial) (Sample.job 100))) = Some ct ∧
        CalculationTask.count ct = 101%Z.
Proof.
  destruct (records_keyed_by_id_and_count_bounded (Sample.jobs 0 100) (Sample.job 100))
    as [_ Hfull].
  apply Hfull. vm_compute. reflexivity.
Defined.

Lemma add_task_existing_id_replaces_witness :
  let w := submit_all (Sample.jobs 0 3) initial in
  OrderedDict.keys (buffer (_add_task "job-0e" "again" Sample.finished_task Sample.bob w).2) =
  OrderedDict.keys (buffer w).
Proof.
  intros w.
  destruct (add_task_existing_id_replaces Sample.bob w "job-0e" "again" Sample.finished_task)
    as (Hkeys & _).
  - decide_by_evaluation.
  - vm_compute. lia.
  - exact Hkeys.
Defined.

Lemma get_task_result_gives_outcome_witness :
  (_get_task_result "4fd1e" Sample.alice Sample.failed_world).1 = wrapper (VInt 0).
Proof.
  destruct (get_task_result_gives_outcome Sample.alice Sample.failed_world "4fd1e"
              Sample.failed_record wrapper (VInt 0) [PoolDispatch; WorkerCompletes])
    as (Hout & _).
  - reflexivity.
  - reflexivity.
  - exact Hout.
Defined.

Lemma result_handlers_unknown_id_witness :
  CalculationDownloadHandler.get "job-0e" Sample.alice MoreSamples.two_jobs_files =
  (Raise (AttributeError "'NoneType' object has no attribute 'task'"),
   MoreSamples.two_jobs_files).
Proof.
  destruct (result_handlers_unknown_id Sample.alice MoreSamples.two_jobs_files "job-0e"
              CalculationDownloadHandler.get) as [Hraise _].
  - apply not_elem_of_nil.
  - right. right. left.
  - exact Hraise.
Defined.

Lemma download_streams_pickled_result_witness :
  ∃ chunks : list (list Byte.byte),
    out (CalculationDownloadHandler.get "a81be" Sample.alice Sample.finished_world).2 =
      [SetHeader "Content-Type" "application/octet-stream";
       SetHeader "Content-Disposition" "attachment; filename=ETC-calculationa81be.p"] ++
      (WriteBytes <$> chunks) ++ [Finish] ∧
    mjoin chunks = [Byte.x80; Byte.x04].
Proof.
  destruct (download_streams_pickled_result Sample.alice Sample.finished_world "a81be"
              Sample.finished_record
              (VDict [("info_div", VStr "info"); ("timing_div", VStr "timing");
                      ("input_div", VStr "input"); ("warnings_div", VStr "warnings");
                      ("w", VList [VInt 1]); ("alpha", VList [VInt 2])]))
    as (chunks & Hrun & Hjoin & _).
  - reflexivity.
  - reflexivity.
  - reflexivity.
  - exists chunks. split; [by rewrite Hrun | exact Hjoin].
Defined.

Lemma download_pandin_streams_table_witness :
  ∃ chunks : list (list Byte.byte),
    out (CalculationDownloadPandInHandler.get "a81be" Sample.alice Sample.finished_world).2 =
      [SetHeader "Content-Type" "application/octet-stream";
       SetHeader "Content-Disposition" "attachment; filename=PandExo-Input-filea81be.txt"] ++
      (WriteBytes <$> chunks) ++ [Finish] ∧
    mjoin chunks = [Byte.x31; Byte.x20; Byte.x32].
Proof.
  destruct (download_pandin_streams_table Sample.alice Sample.finished_world "a81be"
              Sample.finished_record
              (VDict [("info_div", VStr "info"); ("timing_div", VStr "timing");
                      ("input_div", VStr "input"); ("warnings_div", VStr "warnings");
                      ("w", VList [VInt 1]); ("alpha", VList [VInt 2])]))
    as [Hok _].
  - reflexivity.
  - reflexivity.
  - reflexivity.
  - destruct (Hok (VList [VInt 1]) (VList [VInt 2]) [Byte.x31; Byte.x20; Byte.x32])
      as (chunks & Hrun & Hjoin & _); [reflexivity | reflexivity | reflexivity |].
    exists chunks. split; [by rewrite Hrun | exact Hjoin].
Defined.


Lemma download_on_closed_connection_witness :
  out (CalculationDownloadHandler.get "a81be" MoreSamples.gone Sample.finished_world).2 = [].
Proof.
  destruct (download_on_closed_connection MoreSamples.gone Sample.finished_world "a81be"
              CalculationDownloadHandler.get) as (_ & _ & Hout).
  - reflexivity.
  - left.
  - exact Hout.
Defined.

Lemma cleanup_removes_exactly_matching_files_witness :
  temp (remove_files_of "a81be" Sample.alice MoreSamples.two_jobs_files).2
    !! "a81beplanet.dat" = None ∧
  temp (remove_files_of "a81be" Sample.alice MoreSamples.two_jobs_files).2
    !! "77c0ehplanet.dat" = Some [Byte.x32].
Proof.
  destruct (cleanup_removes_exactly_matching_files "a81be" Sample.alice
              MoreSamples.two_jobs_files) as (_ & _ & _ & Hgone & Hkept & _).
  split.
  - apply Hgone. by exists "", "planet.dat".
  - rewrite Hkept; [reflexivity |].
    intros Hc%find_contains. vm_compute in Hc. done.
Defined.



Lemma views_render_divs_of_result_witness :
  ∃ div : Val,
    out (CalculationViewHandler.get "a81be" Sample.alice Sample.finished_world).2 =
      [Render "view.html" [] [("script", VStr "script"); ("div", div); ("id", VStr "a81be")]] ∧
    getitem div "timing_div" = Ret (VStr "timing").
Proof.
  destruct (views_render_divs_of_result Sample.alice Sample.finished_world
              (CalculationViewHandler.get "a81be" Sample.alice Sample.finished_world).2 "a81be")
    as [Hview _].
  destruct Hview as (result & script & div0 & div & Hres & Hcomp & Hout & _ & Hdivs & _).
  - reflexivity.
  - exists div. injection Hres as <-. injection Hcomp as <- _.
    split; [exact Hout |]. rewrite Hdivs; [reflexivity | left].
Defined.

Lemma noise_upload_is_dropped_witness :
  (post_noise_floor (fun s => Ret (VStr s)) "0a1be" (Some (".txt", [Byte.x35]))
     MoreSamples.noisy initial).1 = Ret NoiseZero ∧
  temp (post_noise_floor (fun s => Ret (VStr s)) "0a1be" (Some (".txt", [Byte.x35]))
          MoreSamples.noisy initial).2 !! "0a1benoise.txt" = Some [].
Proof.
  destruct (noise_upload_is_dropped (fun s => Ret (VStr s)) "0a1be" (Some (".txt", [Byte.x35]))
              MoreSamples.noisy initial) as (_ & _ & _ & Huser & _).
  destruct (Huser ".txt" [Byte.x35]) as [Hzero Htemp]; [reflexivity | reflexivity |].
  split; [exact Hzero |]. rewrite Htemp. reflexivity.
Defined.
